(** * vskernels.kernels.complex: aspect-ratio correction and linear-light dispatch

    A shallow embedding of [src/vskernels/kernels/complex.py].

    Python values are embedded as the tagged type [pyval]; keyword dictionaries
    are finite maps from names to values; exceptions are the [Raise] case of
    [result]; [print] appends a line to the standard output threaded through
    the [Py] monad.  [Sar] and [Dar] are [fractions.Fraction] subclasses and
    are canonical fractions ([Qc]).

    Python [float]s are the carrier of the interface [FloatOps]: conversion
    from [int] and from [Fraction], the four operations and the comparisons.
    The code is embedded once, over this interface.  Its implementation
    [binary64] is IEEE 754 double precision as Python has it (rounding to
    nearest even, infinities, NaN, [OverflowError] on conversion); the
    implementation [exact] is the idealisation by exact rationals, for the
    properties that are stated up to floating-point tolerance.  A theorem
    that names neither holds for both. *)

From Stdlib Require Import ZArith QArith Qcanon Qfield SpecFloat.
From stdpp Require Import base option list gmap strings.

Open Scope Z_scope.
Open Scope string_scope.

(** ** Exceptions *)

Inductive exn : Type :=
| TypeError
| ValueError
| ZeroDivisionError
| OverflowError
| KeyError (key : string)
| AttributeError (name : string)
| ExternalError (what : string).

Inductive result (A : Type) : Type :=
| Ok (a : A)
| Raise (e : exn).
Arguments Ok {A} a.
Arguments Raise {A} e.

Definition rbind {A B} (r : result A) (k : A -> result B) : result B :=
  match r with
  | Ok a => k a
  | Raise e => Raise e
  end.

Notation "'let!' x ':=' e 'in' k" := (rbind e (fun x => k))
  (at level 10, x pattern, e at level 100, k at level 200).

(** ** Floats *)

(** Python's [float]: the constants [0.0], [1.0] and [2.0], [float(n)] of
    an [int] and of a [Fraction] (both may raise [OverflowError]),
    [Fraction.from_float], the operations [+], [-], [*], the quotient of
    [/] for a divisor that is not zero, and [==] and [<]. *)
Class FloatOps : Type := {
  float : Type;
  f0 : float;
  f1 : float;
  f2 : float;
  f_of_Z : Z -> result float;
  f_of_frac : Qc -> result float;
  f_to_frac : float -> result Qc;
  f_add : float -> float -> float;
  f_sub : float -> float -> float;
  f_mul : float -> float -> float;
  f_quot : float -> float -> float;
  f_eqb : float -> float -> bool;
  f_ltb : float -> float -> bool
}.

(** What both instances below share: [float(Fraction(1))] is [1.0] and
    [float(0)] is [0.0]; [1.0 == 1.0] and [0.0 == 0.0]; a float obtained
    from a fraction is equal to itself (it is not a NaN), and [0.0] times it
    is zero (it is finite). *)
Class FloatLaws `{FloatOps} : Prop := {
  f_of_frac_1 : f_of_frac 1%Qc = Ok f1;
  f_of_Z_0 : f_of_Z 0 = Ok f0;
  f_eqb_1 : f_eqb f1 f1 = true;
  f_eqb_0 : f_eqb f0 f0 = true;
  f_of_frac_eqb : forall r x, f_of_frac r = Ok x -> f_eqb x x = true;
  f_of_frac_mul_0 : forall r x, f_of_frac r = Ok x -> f_eqb (f_mul f0 x) f0 = true
}.

Declare Scope fl_scope.
Delimit Scope fl_scope with fl.
Infix "+" := f_add : fl_scope.
Infix "-" := f_sub : fl_scope.
Infix "*" := f_mul : fl_scope.
Infix "/" := f_quot : fl_scope.

(** [a / b] on floats *)
Definition f_div `{FloatOps} (a b : float) : result float :=
  if f_eqb b f0 then Raise ZeroDivisionError else Ok (a / b)%fl.

(** *** Exact rationals *)

Definition Z2Qc (n : Z) : Qc := Q2Qc (inject_Z n).

Definition exact : FloatOps := {|
  float := Qc;
  f0 := 0%Qc;
  f1 := 1%Qc;
  f2 := 2%Qc;
  f_of_Z := fun n => Ok (Z2Qc n);
  f_of_frac := fun r => Ok r;
  f_to_frac := fun x => Ok x;
  f_add := Qcplus;
  f_sub := Qcminus;
  f_mul := Qcmult;
  f_quot := Qcdiv;
  f_eqb := fun x y => Qeq_bool x y;
  f_ltb := fun x y => negb (Qle_bool y x)
|}.

(** *** IEEE 754 binary64 *)

Module B64.

Definition prec : Z := 53.
Definition emax : Z := 1024.

(** An integer as a float with exponent 0, not yet rounded *)
Definition SF_of_Z (n : Z) : spec_float :=
  match n with
  | Z0 => S754_zero false
  | Zpos p => S754_finite false p 0
  | Zneg p => S754_finite true p 0
  end.

(** A conversion that overflows raises instead of giving an infinity. *)
Definition finite_or_raise (x : spec_float) : result spec_float :=
  match x with
  | S754_infinity _ | S754_nan => Raise OverflowError
  | _ => Ok x
  end.

(** [float(n)], correctly rounded *)
Definition of_Z (n : Z) : result spec_float :=
  finite_or_raise (binary_normalize prec emax n 0 false).

(** [float(Fraction(n, d))] is [n / d] on integers, correctly rounded *)
Definition of_frac (r : Qc) : result spec_float :=
  finite_or_raise (SFdiv prec emax (SF_of_Z (Qnum r)) (S754_finite false (Qden r) 0)).

(** [Fraction.from_float(x)]: the exact value of a finite float *)
Definition to_frac (x : spec_float) : result Qc :=
  match x with
  | S754_zero _ => Ok 0%Qc
  | S754_finite s m e =>
    let v := match e with
             | Zneg p => Qmake (Zpos m) (2 ^ p)
             | _ => inject_Z (Zpos m * 2 ^ e)
             end in
    Ok (Q2Qc (if s then Qopp v else v))
  | S754_infinity _ => Raise OverflowError
  | S754_nan => Raise ValueError
  end.

Definition zero : spec_float := S754_zero false.
Definition one : spec_float := S754_finite false 4503599627370496 (-52).
Definition two : spec_float := S754_finite false 4503599627370496 (-51).

End B64.

Definition binary64 : FloatOps := {|
  float := spec_float;
  f0 := B64.zero;
  f1 := B64.one;
  f2 := B64.two;
  f_of_Z := B64.of_Z;
  f_of_frac := B64.of_frac;
  f_to_frac := B64.to_frac;
  f_add := SFadd B64.prec B64.emax;
  f_sub := SFsub B64.prec B64.emax;
  f_mul := SFmul B64.prec B64.emax;
  f_quot := SFdiv B64.prec B64.emax;
  f_eqb := SFeqb;
  f_ltb := SFltb
|}.

(** ** Python values *)

(** The values the code handles, over the carrier [A] of the floats *)
Inductive value (A : Type) : Type :=
| PyNone
| PyBool (b : bool)
| PyInt (n : Z)
| PyFloat (x : A)
| PyStr (s : string)
| PyTuple (xs : list A)
| PySar (r : Qc)
| PyDar (r : Qc).
Arguments PyNone {A}.
Arguments PyBool {A} b.
Arguments PyInt {A} n.
Arguments PyFloat {A} x.
Arguments PyStr {A} s.
Arguments PyTuple {A} xs.
Arguments PySar {A} r.
Arguments PyDar {A} r.

Abbreviation pyval := (value float).

Section PythonValues.
Context {F : FloatOps}.

(** [bool(v)] *)
Definition truthy (v : pyval) : bool :=
  match v with
  | PyNone => false
  | PyBool b => b
  | PyInt n => negb (n =? 0)%Z
  | PyFloat x => negb (f_eqb x f0)
  | PyStr s => negb (String.eqb s "")
  | PyTuple xs => match xs with [] => false | _ => true end
  | PySar r | PyDar r => negb (Qeq_bool r 0)
  end.

(** [a or b] on already evaluated operands *)
Definition py_or (a b : pyval) : pyval := if truthy a then a else b.

(** [v is None] *)
Definition is_None (v : pyval) : bool :=
  match v with PyNone => true | _ => false end.

(** The float an operand of [+], [-], [*], [/] or the argument of
    [float(·)] is converted to: [bool] and [int] as integers, a [Fraction]
    by its own [__float__], a [float] as it is; the other values raise
    [TypeError]. *)
Definition py_num (v : pyval) : result float :=
  match v with
  | PyBool b => f_of_Z (if b then 1 else 0)
  | PyInt n => f_of_Z n
  | PyFloat x => Ok x
  | PySar r | PyDar r => f_of_frac r
  | PyNone | PyStr _ | PyTuple _ => Raise TypeError
  end.

Definition py_float (v : pyval) : result float := py_num v.

End PythonValues.

Abbreviation KwargsT := (gmap string pyval) (only parsing).

(** ** Dictionaries *)

Section Dictionaries.
Context {F : FloatOps}.

(** [d.get(k)] *)
Definition dict_get (d : KwargsT) (k : string) : pyval := default PyNone (d !! k).

(** [d.get(k, dflt)] *)
Definition dict_get_default (d : KwargsT) (k : string) (dflt : pyval) : pyval :=
  default dflt (d !! k).

(** [d.pop(k, dflt)]: the value and the dictionary left *)
Definition dict_pop_default (d : KwargsT) (k : string) (dflt : pyval) : pyval * KwargsT :=
  (default dflt (d !! k), delete k d).

(** [d.pop(k)] *)
Definition dict_pop (d : KwargsT) (k : string) : result (pyval * KwargsT) :=
  match d !! k with
  | Some v => Ok (v, delete k d)
  | None => Raise (KeyError k)
  end.

(** [d[k]] *)
Definition dict_item (d : KwargsT) (k : string) : result pyval :=
  match d !! k with
  | Some v => Ok v
  | None => Raise (KeyError k)
  end.

(** [d.setdefault(k, v)] *)
Definition dict_setdefault (d : KwargsT) (k : string) (v : pyval) : KwargsT :=
  match d !! k with
  | Some _ => d
  | None => <[k := v]> d
  end.

(** [a | b]: the entries of [b] win *)
Definition dict_or (a b : KwargsT) : KwargsT := b ∪ a.

End Dictionaries.

(** ** [_from_param] *)

Inductive XarT : Type := Sar | Dar.

Section Isinstance.
Context {F : FloatOps}.

(** [isinstance(value, cls)] *)
Definition isinstance_xar (value : pyval) (cls : XarT) : bool :=
  match cls, value with
  | Sar, PySar _ => true
  | Dar, PyDar _ => true
  | _, _ => false
  end.

(** [isinstance(value, SupportsFloatOrIndex)]: the value has [__float__] or
    [__index__]. *)
Definition isinstance_SupportsFloatOrIndex (value : pyval) : bool :=
  match value with
  | PyBool _ | PyInt _ | PyFloat _ | PySar _ | PyDar _ => true
  | PyNone | PyStr _ | PyTuple _ => false
  end.

(** An instance of [cls] holding the fraction [r] *)
Definition xar_val (cls : XarT) (r : Qc) : pyval :=
  match cls with Sar => PySar r | Dar => PyDar r end.

End Isinstance.

(** ** External collaborators

    The aspect value types, the frame handle and the subsampling check belong
    to the [vstools] package; the kernel base class ([Scaler], with
    [get_scale_args] and the concrete [scale_function]) lives in
    [vskernels.kernels.abstract].  They are interfaces here: every theorem
    below holds for all their implementations. *)

Class VSTools `{FloatOps} : Type := {
  VideoNode : Type;
  clip_width : VideoNode -> Z;
  clip_height : VideoNode -> Z;
  (** [cls.from_float(value)] *)
  from_float : XarT -> pyval -> result Qc;
  (** [Sar.from_clip(clip)] *)
  Sar_from_clip : VideoNode -> result Qc;
  (** [Dar.from_size(clip, False)] *)
  Dar_from_size_clip : VideoNode -> result Qc;
  (** [Dar.from_size(width, height)] *)
  Dar_from_size : Z -> Z -> result Qc;
  (** [sar.apply(clip)] *)
  Sar_apply : Qc -> VideoNode -> result VideoNode;
  check_correct_subsampling : VideoNode -> Z -> Z -> result unit
}.

Class Scaler `{VSTools} : Type := {
  (** [self.__class__.__name__] *)
  class_name : string;
  get_scale_args : VideoNode -> pyval * pyval -> Z -> Z -> KwargsT -> result KwargsT;
  scale_function : VideoNode -> KwargsT -> result VideoNode
}.

(** ** Standard output *)

Definition Py (A : Type) : Type := list string -> list string * result A.

Definition pret {A} (a : A) : Py A := fun out => (out, Ok a).

Definition pbind {A B} (m : Py A) (k : A -> Py B) : Py B :=
  fun out =>
    match m out with
    | (out', Ok a) => k a out'
    | (out', Raise e) => (out', Raise e)
    end.

Definition lift {A} (r : result A) : Py A := fun out => (out, r).

Definition print (line : string) : Py unit := fun out => ((out ++ [line])%list, Ok tt).

Notation "'do!' x ':=' e 'in' k" := (pbind e (fun x => k))
  (at level 10, x pattern, e at level 100, k at level 200).

(** ** [_from_param] *)

Section FromParam.
Context {F : FloatOps} {V : VSTools}.

Definition _from_param (cls : XarT) (value fallback : pyval) : result pyval :=
  match value with
  | PyBool false => Ok fallback
  | PyBool true => Ok PyNone
  | _ =>
    if isinstance_xar value cls then Ok value
    else if isinstance_SupportsFloatOrIndex value then
      let! r := from_float cls value in Ok (xar_val cls r)
    else Ok PyNone
  end.

End FromParam.

(** ** [KeepArScaler] *)

Definition dquote : string := String (Ascii.ascii_of_nat 34) EmptyString.

Definition keep_ar_warning (cls_name : string) : string :=
  cls_name ++ ".scale: " ++ dquote ++ "keep_ar" ++ dquote
    ++ " set with non-None values set in " ++ dquote ++ "sar" ++ dquote
    ++ " and " ++ dquote ++ "dar" ++ dquote ++ " won't do anything!".

Definition raised {A} (r : result A) : bool :=
  match r with Ok _ => false | Raise _ => true end.

(** What a call returned, [dflt] for a call that raised *)
Definition result_or {A} (dflt : A) (r : result A) : A :=
  match r with Ok a => a | Raise _ => dflt end.

(** [Resolution(width, height)], a named tuple *)
Record resolution (A : Type) : Type := { res_width : value A; res_height : value A }.
Arguments res_width {A} _.
Arguments res_height {A} _.

Abbreviation Resolution := (resolution float).

(** What lines 123-135 of [_handle_crop_resize_kwargs] leave in the locals
    [src_sar], [out_sar], [src_dar] and [out_dar]. *)
Record aspect_of (A : Type) : Type := {
  src_sar : A;
  out_sar : value A;
  src_dar : A;
  out_dar : A
}.
Arguments src_sar {A} _.
Arguments out_sar {A} _.
Arguments src_dar {A} _.
Arguments out_dar {A} _.

Abbreviation aspect := (aspect_of float).

(** The crop window of the spec's data model, in source-pixel units *)
Record window (A : Type) : Type := {
  cw_top : A;
  cw_left : A;
  cw_width : A;
  cw_height : A
}.
Arguments cw_top {A} _.
Arguments cw_left {A} _.
Arguments cw_width {A} _.
Arguments cw_height {A} _.

Abbreviation CropWindow := (window float).

Section KeepArData.
Context {F : FloatOps}.

(** The window a shift [(src_top, src_left)] and the [src_width] and
    [src_height] entries of a keyword dictionary describe *)
Definition crop_window_of (out_shift : pyval * pyval) (kwargs : KwargsT) : result CropWindow :=
  let! t := py_num (fst out_shift) in
  let! l := py_num (snd out_shift) in
  let! w := (let! v := dict_item kwargs "src_width" in py_num v) in
  let! h := (let! v := dict_item kwargs "src_height" in py_num v) in
  Ok {| cw_top := t; cw_left := l; cw_width := w; cw_height := h |}.

(** The window the four [src_*] entries of a keyword dictionary describe *)
Definition crop_window (kwargs : KwargsT) : result CropWindow :=
  let! t := dict_item kwargs "src_top" in
  let! l := dict_item kwargs "src_left" in
  crop_window_of (t, l) kwargs.

(** The spec's width trim (section 4.2, step 4):
    [excess = crop.width - crop.height * target_dar; crop.left += excess/2;
    crop.width -= excess]. *)
Definition trim_width (crop : CropWindow) (target_dar : float) : CropWindow :=
  let excess := (cw_width crop - cw_height crop * target_dar)%fl in
  {| cw_top := cw_top crop;
     cw_left := (cw_left crop + excess / f2)%fl;
     cw_width := (cw_width crop - excess)%fl;
     cw_height := cw_height crop |}.

(** The spec's height trim:
    [excess = crop.height - crop.width / target_dar; crop.top += excess/2;
    crop.height -= excess]. *)
Definition trim_height (crop : CropWindow) (target_dar : float) : CropWindow :=
  let excess := (cw_height crop - cw_width crop / target_dar)%fl in
  {| cw_top := (cw_top crop + excess / f2)%fl;
     cw_left := cw_left crop;
     cw_width := cw_width crop;
     cw_height := (cw_height crop - excess)%fl |}.

(** An override that is a value of its own: neither unset nor a boolean *)
Definition concrete (v : pyval) : bool :=
  match v with
  | PyNone | PyBool _ => false
  | _ => true
  end.

(** The keyword dictionary left for [**kwargs] holds none of the named
    keyword parameters of [scale]: Python binds those to the parameters. *)
Definition extra_kwargs (kwargs : KwargsT) : Prop :=
  kwargs !! "sar" = None /\ kwargs !! "dar" = None /\ kwargs !! "keep_ar" = None.

(** [a or b], with [b] evaluated only when [a] is falsy *)
Definition or_else (a : pyval) (b : result pyval) : result pyval :=
  if truthy a then Ok a else b.

End KeepArData.

Section KeepArScaler.
Context {F : FloatOps} {V : VSTools} {S : Scaler}.

Definition _get_kwargs_keep_ar (sar dar keep_ar : pyval) (kwargs : KwargsT) : Py KwargsT :=
  let kwargs := dict_or (<["keep_ar" := keep_ar]> (<["sar" := sar]> (<["dar" := dar]> ∅))) kwargs in
  do! _ := (if negb (existsb is_None (map (dict_get kwargs) ["keep_ar"; "sar"; "dar"]))
            then print (keep_ar_warning class_name)
            else pret tt) in
  do! (default_val, kwargs) := lift (dict_pop kwargs "keep_ar") in
  let fill (kwargs : result KwargsT) (key : string) : result KwargsT :=
    let! kwargs := kwargs in
    let! v := dict_item kwargs key in
    if is_None v then Ok (<[key := default_val]> kwargs) else Ok kwargs in
  lift (foldl fill (Ok kwargs) ["sar"; "dar"]).

(** Lines 116-119: the source window, from the aliases [sy], [sx], [sw], [sh],
    the shift and the clip. *)
Definition crop_defaults (clip : VideoNode) (shift : pyval * pyval) (kwargs : KwargsT) : KwargsT :=
  let '(sy, kwargs) := dict_pop_default kwargs "sy" (fst shift) in
  let kwargs := dict_setdefault kwargs "src_top" sy in
  let '(sx, kwargs) := dict_pop_default kwargs "sx" (snd shift) in
  let kwargs := dict_setdefault kwargs "src_left" sx in
  let '(sw, kwargs) := dict_pop_default kwargs "sw" (PyInt (clip_width clip)) in
  let kwargs := dict_setdefault kwargs "src_width" sw in
  let '(sh, kwargs) := dict_pop_default kwargs "sh" (PyInt (clip_height clip)) in
  dict_setdefault kwargs "src_height" sh.

(** Line 123: the resolved sample aspect ratio of the source, as a float. *)
Definition resolved_sar (clip : VideoNode) (sar : pyval) : result float :=
  let! p := _from_param Sar sar (PySar 1) in
  let! p := or_else p (let! r := Sar_from_clip clip in Ok (PySar r)) in
  py_float p.

(** Line 127: the target DAR before the correction for non-square pixels. *)
Definition resolved_dar (width height : Z) (dar : pyval) (src_dar : float) : result float :=
  let! q := _from_param Dar dar (PyFloat src_dar) in
  let! q := or_else q (let! r := Dar_from_size width height in Ok (PyDar r)) in
  py_float q.

(** Lines 130-133: [(width / src_sar) / height] or
    [width / (height * src_sar)], the integers converted as each operation
    meets them. *)
Definition nonsquare_dar (width height : Z) (src_sar : float) : result float :=
  if f_ltb f1 src_sar then
    let! w := f_of_Z width in
    let! t := f_div w src_sar in
    let! h := f_of_Z height in
    f_div t h
  else
    let! h := f_of_Z height in
    let! w := f_of_Z width in
    f_div w (h * src_sar)%fl.

(** Lines 123-135: source SAR and DAR, target DAR and output SAR tag. *)
Definition resolve_aspect (clip : VideoNode) (width height : Z) (sar dar : pyval) : result aspect :=
  let! src_sar := resolved_sar clip sar in
  let out_sar := PyNone in
  let! d := Dar_from_size_clip clip in
  let! src_dar := py_float (PyDar d) in
  let! out_dar := resolved_dar width height dar src_dar in
  if negb (f_eqb src_sar f1) then
    let! out_dar := nonsquare_dar width height src_sar in
    let out_sar := PySar 1 in
    Ok {| src_sar := src_sar; out_sar := out_sar; src_dar := src_dar; out_dar := out_dar |}
  else
    Ok {| src_sar := src_sar; out_sar := out_sar; src_dar := src_dar; out_dar := out_dar |}.

(** Lines 138-145: the axis to trim, as the two keys it names, and the excess. *)
Definition choose_trim (src_res : Resolution) (src_dar out_dar : float)
  : result (string * string * float) :=
  if f_ltb out_dar src_dar then
    let! h := py_num (res_height src_res) in
    let! w := py_num (res_width src_res) in
    Ok ("src_left", "src_width", (w - h * out_dar)%fl)
  else
    let! w := py_num (res_width src_res) in
    let! q := f_div w out_dar in
    let! h := py_num (res_height src_res) in
    Ok ("src_top", "src_height", (h - q)%fl).

(** Lines 137-150: the centre crop. *)
Definition center_crop (src_res : Resolution) (src_dar out_dar : float) (kwargs : KwargsT)
  : result KwargsT :=
  if negb (f_eqb src_dar out_dar) then
    let! (src_shift, src_window, fix_crop) := choose_trim src_res src_dar out_dar in
    let fix_shift := (fix_crop / f2)%fl in
    let! v := dict_item kwargs src_shift in
    let! v := py_num v in
    let kwargs := <[src_shift := PyFloat (v + fix_shift)%fl]> kwargs in
    let! u := dict_item kwargs src_window in
    let! u := py_num u in
    let kwargs := <[src_window := PyFloat (u - fix_crop)%fl]> kwargs in
    Ok kwargs
  else Ok kwargs.

Definition _handle_crop_resize_kwargs (clip : VideoNode) (width height : Z)
    (shift : pyval * pyval) (sar dar : pyval) (kwargs : KwargsT)
  : result (KwargsT * (pyval * pyval) * pyval) :=
  let kwargs := crop_defaults clip shift kwargs in
  let! w := dict_item kwargs "src_width" in
  let! h := dict_item kwargs "src_height" in
  let src_res := {| res_width := w; res_height := h |} in
  let! a := resolve_aspect clip width height sar dar in
  let! kwargs := center_crop src_res (src_dar a) (out_dar a) kwargs in
  let! (src_top, kwargs) := dict_pop kwargs "src_top" in
  let! (src_left, kwargs) := dict_pop kwargs "src_left" in
  let out_shift := (src_top, src_left) in
  Ok (kwargs, out_shift, out_sar a).

(** A call [f(..., **kwargs)] binds the required keyword parameter [name] to
    the entry of [kwargs] and leaves the rest for the callee's [**kwargs]. *)
Definition bind_keyword (kwargs : KwargsT) (name : string) : result (pyval * KwargsT) :=
  match kwargs !! name with
  | Some v => Ok (v, delete name kwargs)
  | None => Raise TypeError
  end.

(** [out_sar.apply(clip)] *)
Definition apply_sar (out_sar : pyval) (clip : VideoNode) : result VideoNode :=
  match out_sar with
  | PySar r => Sar_apply r clip
  | _ => Raise (AttributeError "apply")
  end.

Definition scale (clip : VideoNode) (width height : Z) (shift : pyval * pyval)
    (sar dar keep_ar : pyval) (kwargs : KwargsT) : Py VideoNode :=
  do! _ := lift (check_correct_subsampling clip width height) in
  do! kwargs := _get_kwargs_keep_ar sar dar keep_ar kwargs in
  do! (sar, kwargs) := lift (bind_keyword kwargs "sar") in
  do! (dar, kwargs) := lift (bind_keyword kwargs "dar") in
  do! (kwargs, shift, out_sar) :=
    lift (_handle_crop_resize_kwargs clip width height shift sar dar kwargs) in
  do! kwargs := lift (get_scale_args clip shift width height kwargs) in
  do! clip := lift (scale_function clip kwargs) in
  if truthy out_sar then lift (apply_sar out_sar clip) else pret clip.

End KeepArScaler.

(** ** [_BaseLinearOperation] *)

(** A bound [scale] or [descale] method: [op(clip, width, height, shift, **kwargs)] *)
Definition operation `{VSTools} : Type :=
  VideoNode -> Z -> Z -> pyval * pyval -> KwargsT -> result VideoNode.

(** What attribute lookup finds on a kernel class: the [_linear_scale] and
    [_linear_descale] methods a concrete kernel may define, and the methods
    [super()] resolves to after [_BaseLinearOperation] in the resolution order. *)
Record kernel_class `{VSTools} : Type := {
  class_attrs : string -> option operation;
  super_attrs : string -> option operation
}.

Record kernel `{VSTools} : Type := {
  kernel_cls : kernel_class;
  orig_kwargs : KwargsT;
  kwargs_ : KwargsT
}.

(** The arguments the scoped transform [LinearLight(clip, linear, sigmoid,
    resampler, out_fmt)] is built with. *)
Record LinearLight `{VSTools} : Type := {
  ll_clip : VideoNode;
  ll_linear : pyval;
  ll_sigmoid : pyval;
  ll_resampler : kernel;
  ll_out_fmt : pyval
}.

(** The scoped transform of [vskernels.util]: reading [ll.linear] gives the
    linearised frame, and [ll.out], once the processed frame was stored in
    [ll.linear], gives it back in the original representation. *)
Class LinearLightScope `{VSTools} : Type := {
  to_linear : LinearLight -> result VideoNode;
  from_linear : LinearLight -> VideoNode -> result VideoNode
}.

Section BaseLinearOperation.
Context {F : FloatOps} {V : VSTools} {L : LinearLightScope}.

Definition __init__ (cls : kernel_class) (kwargs : KwargsT) : kernel :=
  {| kernel_cls := cls;
     orig_kwargs := kwargs;
     kwargs_ := filter (fun kv => kv.1 ∉ ["linear"; "sigmoid"]) kwargs |}.

Definition hasattr (self : kernel) (name : string) : bool :=
  match class_attrs (kernel_cls self) name with Some _ => true | None => false end.

Definition getattr (self : kernel) (name : string) : result operation :=
  match class_attrs (kernel_cls self) name with
  | Some op => Ok op
  | None => Raise (AttributeError name)
  end.

Definition getattr_super (self : kernel) (name : string) : result operation :=
  match super_attrs (kernel_cls self) name with
  | Some op => Ok op
  | None => Raise (AttributeError name)
  end.

(** Line 53 *)
Definition resolve_operation (op_name : string) (self : kernel) (has_custom_op : bool)
  : result operation :=
  if has_custom_op then getattr self ("_linear_" ++ op_name)
  else getattr_super self op_name.

(** Line 54 *)
Definition effective_sigmoid (self : kernel) (sigmoid : pyval) : pyval :=
  dict_get_default (orig_kwargs self) "sigmoid" sigmoid.

(** Line 55, on the sigmoid of line 54 *)
Definition effective_linear (self : kernel) (linear sigmoid : pyval) : pyval :=
  py_or (py_or (dict_get_default (orig_kwargs self) "linear" (PyBool false)) linear)
        (PyBool (negb (negb (truthy sigmoid)))).

(** Lines 60-63: the operation inside the scoped transform. *)
Definition in_linear_light (ll : LinearLight) (op : operation)
    (width height : Z) (shift : pyval * pyval) (kwargs : KwargsT) : result VideoNode :=
  let! lin := to_linear ll in
  let! res := op lin width height shift kwargs in
  from_linear ll res.

Definition _linear_op (op_name : string) (self : kernel) (clip : VideoNode)
    (width height : Z) (shift : pyval * pyval) (linear sigmoid : pyval)
    (kwargs : KwargsT) : result VideoNode :=
  let has_custom_op := hasattr self ("_linear_" ++ op_name) in
  let! operation := resolve_operation op_name self has_custom_op in
  let sigmoid := effective_sigmoid self sigmoid in
  let linear := effective_linear self linear sigmoid in
  if negb (truthy linear) && negb has_custom_op then
    operation clip width height shift kwargs
  else
    let '(fmt, kwargs) := dict_pop_default kwargs "format" PyNone in
    let ll := {| ll_clip := clip; ll_linear := linear; ll_sigmoid := sigmoid;
                 ll_resampler := self; ll_out_fmt := fmt |} in
    in_linear_light ll operation width height shift kwargs.

End BaseLinearOperation.

(** ** A concrete kernel

    Modelled from the spec: the external collaborators of sections 2 and 6
    (aspect value types, frame metadata, primitive resample operation, scoped
    linear-light transform), none of which is part of [complex.py].  A frame
    records its size, the SAR stored in its properties, the SAR tag applied to
    it and the operations it went through; a DAR is the fraction
    [width / height] of a size (section 3, with the SAR disabled).  The
    sample calls below run on this kernel. *)

Module Demo.

Record frame : Type := {
  f_width : Z;
  f_height : Z;
  f_sar : Qc;
  f_tag : option Qc;
  f_log : list string
}.

Definition logged (what : string) (c : frame) : frame :=
  {| f_width := f_width c; f_height := f_height c; f_sar := f_sar c;
     f_tag := f_tag c; f_log := (f_log c ++ [what])%list |}.

Definition tagged (r : Qc) (c : frame) : frame :=
  {| f_width := f_width c; f_height := f_height c; f_sar := f_sar c;
     f_tag := Some r; f_log := f_log c |}.

Definition resized (width height : Z) (c : frame) : frame :=
  {| f_width := width; f_height := height; f_sar := f_sar c;
     f_tag := f_tag c; f_log := f_log c |}.

(** [Fraction(n, d)] *)
Definition Fraction (n d : Z) : result Qc :=
  if (d =? 0)%Z then Raise ZeroDivisionError
  else Ok (Q2Qc (Qmake (n * Z.sgn d) (Z.to_pos (Z.abs d)))).

Definition Qc_of (n d : Z) : Qc := Q2Qc (Qmake n (Z.to_pos d)).

(** 720x480 anamorphic source, SAR 8/9 in its properties *)
Definition ntsc : frame :=
  {| f_width := 720; f_height := 480; f_sar := Qc_of 8 9; f_tag := None; f_log := [] |}.

(** A SAR one part in 2^53 above 1: it rounds to the double 1.0. *)
Definition sar_near_1 : Qc := Qc_of 9007199254740993 9007199254740992.

(** 1920x1080 source with square pixels *)
Definition hd : frame :=
  {| f_width := 1920; f_height := 1080; f_sar := 1%Qc; f_tag := None; f_log := [] |}.

Section Kernel.
Context {F : FloatOps}.

Definition resample (kwargs : KwargsT) (c : frame) : frame :=
  logged "resample"
    (resized (match kwargs !! "width" with Some (PyInt w) => w | _ => f_width c end)
             (match kwargs !! "height" with Some (PyInt h) => h | _ => f_height c end) c).

(** [Fraction.from_float(value)] *)
Definition fraction_from_float (value : pyval) : result Qc :=
  match value with
  | PyBool b => Ok (Z2Qc (if b then 1 else 0))
  | PyInt n => Ok (Z2Qc n)
  | PyFloat x => f_to_frac x
  | _ => Raise TypeError
  end.

#[export] Instance vstools : VSTools := {|
  VideoNode := frame;
  clip_width := f_width;
  clip_height := f_height;
  from_float := fun _ value => fraction_from_float value;
  Sar_from_clip := fun c => Ok (f_sar c);
  Dar_from_size_clip := fun c => Fraction (f_width c) (f_height c);
  Dar_from_size := fun w h => Fraction w h;
  Sar_apply := fun r c => Ok (tagged r c);
  check_correct_subsampling := fun _ _ _ => Ok tt
|}.

#[export] Instance bicubic : Scaler := {|
  class_name := "Bicubic";
  get_scale_args := fun _ shift width height kwargs =>
    Ok (dict_or (<["width" := PyInt width]> (<["height" := PyInt height]>
                 (<["src_top" := fst shift]> (<["src_left" := snd shift]> ∅)))) kwargs);
  scale_function := fun c kwargs => Ok (resample kwargs c)
|}.

#[export] Instance linear_light : LinearLightScope := {|
  to_linear := fun ll => Ok (logged "to_linear" (ll_clip ll));
  from_linear := fun _ c => Ok (logged "from_linear" c)
|}.

(** The default-space operation and a specialised linear-space one *)
Definition plain_op : operation :=
  fun c width height _ _ =>
    Ok (logged "scale" (resized width height c)).

Definition custom_op : operation :=
  fun c width height _ _ =>
    Ok (logged "_linear_scale" (resized width height c)).

(** A kernel class without and one with a [_linear_scale] of its own *)
Definition PlainKernel : kernel_class :=
  {| class_attrs := fun _ => None;
     super_attrs := fun name => if String.eqb name "scale" then Some plain_op else None |}.

Definition CustomKernel : kernel_class :=
  {| class_attrs := fun name => if String.eqb name "_linear_scale" then Some custom_op else None;
     super_attrs := fun name => if String.eqb name "scale" then Some plain_op else None |}.

Definition no_shift : pyval * pyval := (PyInt 0, PyInt 0).

(** A kernel built with [sigmoid=False] *)
Definition plain_no_sigmoid : kernel := __init__ PlainKernel {["sigmoid" := PyBool false]}.

End Kernel.

End Demo.

(** * Properties *)

(** ** The two float instances *)

Lemma exact_laws : FloatLaws (H := exact).
Proof.
  split; try reflexivity; intros r x _; apply Qeq_bool_iff; cbn;
    rewrite ?Qcmult_0_l; reflexivity.
Qed.

Lemma SFeqb_finite_refl (x y : spec_float) : B64.finite_or_raise x = Ok y -> SFeqb y y = true.
Proof.
  destruct x as [s|s| |s m e]; cbn; intros E; try discriminate E; injection E as <-.
  - reflexivity.
  - unfold SFeqb, SFcompare. rewrite Z.compare_refl.
    destruct s; [rewrite Pos.compare_cont_refl | rewrite Pos.compare_cont_refl]; reflexivity.
Qed.

Lemma SFmul_zero_finite (x y : spec_float) :
  B64.finite_or_raise x = Ok y -> SFeqb (SFmul B64.prec B64.emax B64.zero y) B64.zero = true.
Proof.
  destruct x as [s|s| |s m e]; cbn; intros E; try discriminate E; injection E as <-; reflexivity.
Qed.

Lemma binary64_laws : FloatLaws (H := binary64).
Proof.
  split; try reflexivity.
  - intros r x. apply SFeqb_finite_refl.
  - intros r x. apply SFmul_zero_finite.
Qed.

(** ** Comparisons on exact rationals *)

Section ExactFloats.
#[local] Existing Instance exact.

Lemma f_eqb_eq (x y : float) : f_eqb x y = true <-> x = y.
Proof.
  cbn. rewrite Qeq_bool_iff. split.
  - apply Qc_is_canon.
  - intros ->. reflexivity.
Qed.

Lemma f_eqb_neq (x y : float) : f_eqb x y = false <-> x <> y.
Proof.
  rewrite <- f_eqb_eq. destruct (f_eqb x y); split; congruence.
Qed.

Lemma f_ltb_lt (x y : float) : f_ltb x y = true <-> (x < y)%Qc.
Proof.
  cbn. unfold Qclt. rewrite negb_true_iff, <- not_true_iff_false, Qle_bool_iff.
  split; [apply Qnot_le_lt | apply Qlt_not_le].
Qed.

Lemma f_ltb_ge (x y : float) : f_ltb x y = false <-> (y <= x)%Qc.
Proof.
  cbn. unfold Qcle. rewrite negb_false_iff. apply Qle_bool_iff.
Qed.

Lemma f_div_inv (a b c : float) :
  f_div a b = Ok c -> b <> 0%Qc /\ c = (a / b)%Qc.
Proof.
  unfold f_div. destruct (f_eqb b f0) eqn:E; [discriminate|].
  intros [= <-]. apply f_eqb_neq in E. split; [exact E | reflexivity].
Qed.

(** Moving an edge in by half of what the extent loses keeps the centre. *)
Lemma centre_kept (l w e : Qc) : (l + e / 2 + (w - e) / 2 = l + w / 2)%Qc.
Proof.
  field. intros E. apply (f_equal this) in E. discriminate E.
Qed.

End ExactFloats.

(** What is left of the width is the height times the ratio, and the other
    way round. *)
Lemma width_after_trim (w h o : Qc) : (w - (w - h * o) = h * o)%Qc.
Proof. ring. Qed.

Lemma height_after_trim (w h o : Qc) : o <> 0%Qc -> (w = (h - (h - w / o)) * o)%Qc.
Proof. intros Ho. field. exact Ho. Qed.

(** The two ways of dividing the target width by the source SAR and the
    target height *)
Lemma div_div_mul (w s h : Qc) : s <> 0%Qc -> h <> 0%Qc -> (w / s / h = w / (h * s))%Qc.
Proof. intros Hs Hh. field. auto. Qed.

Lemma mul_neq_0 (h s : Qc) : (h * s)%Qc <> 0%Qc -> h <> 0%Qc /\ s <> 0%Qc.
Proof. intros Hm. split; intros E; apply Hm; rewrite E; ring. Qed.

(** ** Evaluation steps *)

Lemma rbind_Ok {A B} (r : result A) (k : A -> result B) (b : B) :
  rbind r k = Ok b -> exists a, r = Ok a /\ k a = Ok b.
Proof.
  destruct r as [a|e]; simpl; [eauto | discriminate].
Qed.

Lemma rbind_ret {A} (r : result A) : rbind r (fun x => Ok x) = r.
Proof. destruct r; reflexivity. Qed.

(** Lookups through the updates and removals of a keyword dictionary *)
Ltac kw_lookup :=
  repeat (rewrite lookup_insert_eq
          || (rewrite lookup_insert_ne by done)
          || (rewrite lookup_delete_ne by done)).

Section KeepArFacts.
Context {F : FloatOps} {V : VSTools} {S : Scaler}.

Lemma keep_ar_base_lookup (sar dar keep_ar : pyval) (kwargs : KwargsT) :
  extra_kwargs kwargs ->
  let d := dict_or (<["keep_ar" := keep_ar]> (<["sar" := sar]> (<["dar" := dar]> ∅))) kwargs in
  d !! "keep_ar" = Some keep_ar /\ d !! "sar" = Some sar /\ d !! "dar" = Some dar.
Proof.
  intros (Hs & Hd & Hk). unfold dict_or. cbv zeta.
  rewrite !lookup_union_r by assumption.
  repeat split; by simplify_map_eq.
Qed.

Lemma keep_ar_filled (sar dar keep_ar : pyval) (kwargs : KwargsT) (a b : pyval) :
  extra_kwargs kwargs ->
  <["dar" := b]> (<["sar" := a]> (delete "keep_ar"
     (dict_or (<["keep_ar" := keep_ar]> (<["sar" := sar]> (<["dar" := dar]> ∅))) kwargs)))
  = <["sar" := a]> (<["dar" := b]> kwargs).
Proof.
  intros (Hs & Hd & Hk). unfold dict_or. apply map_eq. intros k.
  destruct (decide (k = "dar")) as [->|Nd]; [by simplify_map_eq|].
  destruct (decide (k = "sar")) as [->|Ns]; [by simplify_map_eq|].
  destruct (decide (k = "keep_ar")) as [->|Nk].
  - simplify_map_eq. by rewrite Hk.
  - rewrite !lookup_insert_ne, lookup_delete_ne, lookup_union by done.
    rewrite !lookup_insert_ne, lookup_empty by done.
    by destruct (kwargs !! k).
Qed.

(** What the resolver prints and returns, on the keywords Python leaves for
    [**kwargs]. *)
Lemma get_kwargs_keep_ar_spec (sar dar keep_ar : pyval) (kwargs : KwargsT) (out : list string) :
  extra_kwargs kwargs ->
  _get_kwargs_keep_ar sar dar keep_ar kwargs out =
    ((if is_None keep_ar || is_None sar || is_None dar then out
      else out ++ [keep_ar_warning class_name])%list,
     Ok (<["sar" := if is_None sar then keep_ar else sar]>
         (<["dar" := if is_None dar then keep_ar else dar]> kwargs))).
Proof.
  intros Hx. destruct (keep_ar_base_lookup sar dar keep_ar kwargs Hx) as (Lk & Ls & Ld).
  unfold _get_kwargs_keep_ar.
  set (d := dict_or _ kwargs) in *.
  assert (Hf : forall a b, <["dar" := b]> (<["sar" := a]> (delete "keep_ar" d))
                 = <["sar" := a]> (<["dar" := b]> kwargs))
    by (intros a b; apply keep_ar_filled; assumption).
  clearbody d.
  unfold pbind, lift, dict_pop, dict_get, dict_item, print, pret.
  cbn [map existsb foldl]. rewrite Lk, Ls, Ld. cbn [default from_option id rbind].
  rewrite lookup_delete_ne, Ls by done. cbn [rbind].
  rewrite orb_false_r, orb_assoc.
  assert (Hout : forall (b : bool) (r : result (gmap string pyval)),
    (let (out', r0) := (if negb b then (fun o : list string =>
                           ((o ++ [keep_ar_warning class_name])%list, Ok ()))
                        else (fun o : list string => (o, Ok ()))) out in
     match r0 with Ok _ => (out', r) | Raise e => (out', Raise e) end)
    = ((if b then out else (out ++ [keep_ar_warning class_name])%list), r))
    by (intros [] r; reflexivity).
  rewrite Hout. f_equal. rewrite <- Hf.
  assert (Ld' : delete "keep_ar" d !! "dar" = Some dar)
    by (by rewrite lookup_delete_ne).
  assert (Ls' : delete "keep_ar" d !! "sar" = Some sar)
    by (by rewrite lookup_delete_ne).
  destruct (is_None sar) eqn:Es.
  - cbn [rbind]. rewrite lookup_insert_ne, Ld' by done. cbn [rbind].
    destruct (is_None dar); f_equal.
    symmetry. apply insert_id. by rewrite lookup_insert_ne.
  - cbn [rbind]. rewrite Ld'. cbn [rbind].
    destruct (is_None dar); f_equal.
    + f_equal. symmetry. by apply insert_id.
    + symmetry. rewrite (insert_id _ "sar") by done. by apply insert_id.
Qed.

Lemma bound_keywords_rest (a b : pyval) (kwargs : KwargsT) :
  extra_kwargs kwargs ->
  delete "dar" (delete "sar" (<["sar" := a]> (<["dar" := b]> kwargs))) = kwargs.
Proof.
  intros (Hs & Hd & _). apply map_eq. intros k.
  destruct (decide (k = "dar")) as [->|Nd]; [by simplify_map_eq|].
  destruct (decide (k = "sar")) as [->|Ns]; [by simplify_map_eq|].
  by simplify_map_eq.
Qed.

(** [scale], once the subsampling check has passed: the warning of the
    resolver, then the corrector, the primitive resample and the SAR tag. *)
Lemma scale_unfold (clip : VideoNode) (width height : Z) (shift : pyval * pyval)
    (sar dar keep_ar : pyval) (kwargs : KwargsT) (out : list string) (u : unit) :
  extra_kwargs kwargs ->
  check_correct_subsampling clip width height = Ok u ->
  scale clip width height shift sar dar keep_ar kwargs out =
    ((if is_None keep_ar || is_None sar || is_None dar then out
      else out ++ [keep_ar_warning class_name])%list,
     let! (kw_shift, out_sar) :=
       _handle_crop_resize_kwargs clip width height shift
         (if is_None sar then keep_ar else sar)
         (if is_None dar then keep_ar else dar) kwargs in
     let! kwargs := get_scale_args clip kw_shift.2 width height kw_shift.1 in
     let! clip := scale_function clip kwargs in
     if truthy out_sar then apply_sar out_sar clip else Ok clip).
Proof.
  intros Hx Hc. unfold scale, pbind at 1. unfold lift at 1. rewrite Hc.
  unfold pbind at 1. rewrite get_kwargs_keep_ar_spec by assumption.
  generalize (if is_None keep_ar || is_None sar || is_None dar then out
              else (out ++ [keep_ar_warning class_name])%list).
  intros out'.
  set (a := if is_None sar then keep_ar else sar).
  set (b := if is_None dar then keep_ar else dar).
  unfold bind_keyword at 1. rewrite lookup_insert_eq.
  unfold pbind at 1, lift at 1.
  unfold bind_keyword. rewrite lookup_delete_ne, lookup_insert_ne, lookup_insert_eq by done.
  unfold pbind at 1, lift at 1.
  rewrite bound_keywords_rest by assumption.
  unfold pbind, lift, pret.
  destruct (_handle_crop_resize_kwargs clip width height shift a b kwargs)
    as [[[kw1 sh1] tag]|e]; [|reflexivity].
  cbn [rbind fst snd].
  destruct (get_scale_args clip sh1 width height kw1) as [kw2|e]; [|reflexivity].
  cbn [rbind].
  destruct (scale_function clip kw2) as [c2|e]; [|reflexivity].
  cbn [rbind]. destruct (truthy tag); reflexivity.
Qed.

Lemma crop_window_inv (kwargs : KwargsT) (crop : CropWindow) :
  crop_window kwargs = Ok crop ->
  exists vt vl vw vh,
    (kwargs !! "src_top" = Some vt /\ kwargs !! "src_left" = Some vl /\
     kwargs !! "src_width" = Some vw /\ kwargs !! "src_height" = Some vh) /\
    py_num vt = Ok (cw_top crop) /\ py_num vl = Ok (cw_left crop) /\
    py_num vw = Ok (cw_width crop) /\ py_num vh = Ok (cw_height crop).
Proof.
  unfold crop_window, crop_window_of, dict_item. intros Hc.
  destruct (kwargs !! "src_top") as [vt|]; [|discriminate]. cbn [rbind] in Hc.
  destruct (kwargs !! "src_left") as [vl|]; [|discriminate]. cbn [rbind fst snd] in Hc.
  destruct (py_num vt) as [t|] eqn:Nt; [|discriminate]. cbn [rbind] in Hc.
  destruct (py_num vl) as [l|] eqn:Nl; [|discriminate]. cbn [rbind] in Hc.
  destruct (kwargs !! "src_width") as [vw|]; [|discriminate]. cbn [rbind] in Hc.
  destruct (py_num vw) as [w|] eqn:Nw; [|discriminate]. cbn [rbind] in Hc.
  destruct (kwargs !! "src_height") as [vh|]; [|discriminate]. cbn [rbind] in Hc.
  destruct (py_num vh) as [h|] eqn:Nh; [|discriminate]. cbn [rbind] in Hc.
  injection Hc as <-. exists vt, vl, vw, vh. cbn [cw_top cw_left cw_width cw_height].
  repeat split; assumption.
Qed.

(** The corrector returns, and its window is the source window, trimmed on
    the axis the comparison of the two DARs selects. *)
Lemma handle_crop_spec (clip : VideoNode) (width height : Z) (shift : pyval * pyval)
    (sar dar : pyval) (kwargs : KwargsT) (old : CropWindow) (a : aspect) :
  crop_window (crop_defaults clip shift kwargs) = Ok old ->
  resolve_aspect clip width height sar dar = Ok a ->
  (f_eqb (src_dar a) (out_dar a) = false -> f_ltb (out_dar a) (src_dar a) = false ->
   f_eqb (out_dar a) f0 = false) ->
  exists kw' out_shift new,
    _handle_crop_resize_kwargs clip width height shift sar dar kwargs
      = Ok (kw', out_shift, out_sar a) /\
    crop_window_of out_shift kw' = Ok new /\
    new = (if f_eqb (src_dar a) (out_dar a) then old
           else if f_ltb (out_dar a) (src_dar a) then trim_width old (out_dar a)
           else trim_height old (out_dar a)).
Proof.
  intros Hw Ha Hz. unfold _handle_crop_resize_kwargs.
  set (kw0 := crop_defaults clip shift kwargs) in *. clearbody kw0.
  destruct (crop_window_inv kw0 old Hw)
    as (vt & vl & vw & vh & (Lt & Ll & Lw & Lh) & Nt & Nl & Nw & Nh).
  unfold dict_item at 1 2. rewrite Lw, Lh. cbn [rbind]. rewrite Ha. cbn [rbind].
  unfold center_crop.
  destruct (f_eqb (src_dar a) (out_dar a)) eqn:Eq; cbn [negb].
  - cbn [rbind]. unfold dict_pop. rewrite Lt. cbn [rbind].
    kw_lookup. rewrite Ll. cbn [rbind].
    eexists _, _, _. split; [reflexivity|]. split; [|reflexivity].
    unfold crop_window_of, dict_item. cbn [fst snd]. rewrite Nt, Nl. cbn [rbind].
    kw_lookup. rewrite Lw, Lh. cbn [rbind]. rewrite Nw, Nh. cbn [rbind].
    by destruct old.
  - unfold choose_trim. cbn [res_width res_height].
    destruct (f_ltb (out_dar a) (src_dar a)) eqn:Lt'.
    + rewrite Nh, Nw. cbn [rbind]. unfold dict_item. rewrite Ll. cbn [rbind].
      rewrite Nl. cbn [rbind]. kw_lookup. rewrite Lw. cbn [rbind].
      rewrite Nw. cbn [rbind]. unfold dict_pop.
      kw_lookup. rewrite Lt. cbn [rbind]. kw_lookup. cbn [rbind].
      eexists _, _, _. split; [reflexivity|]. split; [|reflexivity].
      unfold crop_window_of, dict_item. cbn [fst snd py_num]. rewrite Nt. cbn [rbind].
      kw_lookup. rewrite Lh. cbn [rbind py_num].
      rewrite Nh. reflexivity.
    + rewrite Nw. cbn [rbind].
      unfold f_div. rewrite (Hz eq_refl eq_refl). cbn [rbind]. rewrite Nh. cbn [rbind].
      unfold dict_item. rewrite Lt. cbn [rbind].
      rewrite Nt. cbn [rbind]. kw_lookup. rewrite Lh. cbn [rbind].
      rewrite Nh. cbn [rbind]. unfold dict_pop.
      kw_lookup. cbn [rbind]. kw_lookup. rewrite Ll. cbn [rbind].
      eexists _, _, _. split; [reflexivity|]. split; [|reflexivity].
      unfold crop_window_of, dict_item. cbn [fst snd py_num]. rewrite Nl. cbn [rbind].
      kw_lookup. rewrite Lw. cbn [rbind py_num].
      rewrite Nw. reflexivity.
Qed.

Lemma resolve_aspect_out_sar (clip : VideoNode) (width height : Z) (sar dar : pyval)
    (a : aspect) (s : float) :
  resolve_aspect clip width height sar dar = Ok a ->
  resolved_sar clip sar = Ok s ->
  src_sar a = s /\ out_sar a = (if f_eqb s f1 then PyNone else PySar 1).
Proof.
  unfold resolve_aspect. intros Ha Hs. rewrite Hs in Ha. cbn [rbind] in Ha.
  repeat (apply rbind_Ok in Ha; destruct Ha as (? & _ & Ha)).
  destruct (f_eqb s f1); cbn [negb] in Ha.
  - injection Ha as <-. split; reflexivity.
  - apply rbind_Ok in Ha. destruct Ha as (? & _ & Ha).
    injection Ha as <-. split; reflexivity.
Qed.

Lemma handle_crop_out_sar (clip : VideoNode) (width height : Z) (shift : pyval * pyval)
    (sar dar : pyval) (kwargs kw' : KwargsT) (out_shift : pyval * pyval) (tag : pyval) :
  _handle_crop_resize_kwargs clip width height shift sar dar kwargs = Ok (kw', out_shift, tag) ->
  exists a, resolve_aspect clip width height sar dar = Ok a /\ tag = out_sar a.
Proof.
  unfold _handle_crop_resize_kwargs. intros Hh.
  apply rbind_Ok in Hh. destruct Hh as (vw & _ & Hh).
  apply rbind_Ok in Hh. destruct Hh as (vh & _ & Hh).
  apply rbind_Ok in Hh. destruct Hh as (a & Ha & Hh).
  apply rbind_Ok in Hh. destruct Hh as (kwc & _ & Hh).
  apply rbind_Ok in Hh. destruct Hh as ([t kw1] & _ & Hh).
  apply rbind_Ok in Hh. destruct Hh as ([l kw2] & _ & Hh).
  injection Hh as _ _ <-. exists a. split; [assumption | reflexivity].
Qed.

(** The tag the corrector returns depends on the resolved source SAR alone. *)
Lemma handle_crop_tag (clip : VideoNode) (width height : Z) (shift : pyval * pyval)
    (sar dar : pyval) (kwargs kw' : KwargsT) (out_shift : pyval * pyval) (tag : pyval)
    (s : float) :
  resolved_sar clip sar = Ok s ->
  _handle_crop_resize_kwargs clip width height shift sar dar kwargs = Ok (kw', out_shift, tag) ->
  tag = (if f_eqb s f1 then PyNone else PySar 1).
Proof.
  intros Hs Hh. apply handle_crop_out_sar in Hh. destruct Hh as (a & Ha & ->).
  apply (resolve_aspect_out_sar _ _ _ _ _ _ _ Ha Hs).
Qed.

(** A scale call on a non-square source that runs through: the frame it
    returns is the resampled frame with the 1:1 tag applied. *)
Lemma scale_nonsquare (clip : VideoNode) (width height : Z) (shift : pyval * pyval)
    (sar dar keep_ar : pyval) (kwargs : KwargsT) (out : list string) (u : unit)
    (s : float) (kw' : KwargsT) (out_shift : pyval * pyval) (tag : pyval)
    (kw2 : KwargsT) (c2 : VideoNode) :
  extra_kwargs kwargs ->
  check_correct_subsampling clip width height = Ok u ->
  resolved_sar clip (if is_None sar then keep_ar else sar) = Ok s ->
  f_eqb s f1 = false ->
  _handle_crop_resize_kwargs clip width height shift
    (if is_None sar then keep_ar else sar)
    (if is_None dar then keep_ar else dar) kwargs = Ok (kw', out_shift, tag) ->
  get_scale_args clip out_shift width height kw' = Ok kw2 ->
  scale_function clip kw2 = Ok c2 ->
  tag = PySar 1 /\
  (scale clip width height shift sar dar keep_ar kwargs out).2 = Sar_apply 1 c2.
Proof.
  intros Hx Hc Hs Hn Hh Hg Hf.
  assert (Ht : tag = PySar 1).
  { rewrite (handle_crop_tag _ _ _ _ _ _ _ _ _ _ _ Hs Hh).
    rewrite Hn. reflexivity. }
  split; [exact Ht|].
  rewrite (scale_unfold _ _ _ _ _ _ _ _ _ u Hx Hc). cbn [snd].
  rewrite Hh. cbn [rbind fst snd]. rewrite Hg. cbn [rbind]. rewrite Hf. cbn [rbind].
  rewrite Ht. reflexivity.
Qed.

(** ** The claims on [KeepArScaler] *)

(** C1 (as amended).  On a source whose resolved sample aspect ratio is not
    1.0 (as floats compare), a scale call that runs through records the 1:1
    output SAR tag and applies it to the resampled frame also when the caller
    supplied an explicit DAR value: a forced DAR does not suppress the tag.
    The tag the corrector returns is absent exactly when the resolved SAR
    compares equal to 1.0. *)
Theorem sar_tag_despite_forced_dar (clip : VideoNode) (width height : Z)
    (shift : pyval * pyval) (sar dar keep_ar : pyval) (kwargs : KwargsT)
    (out : list string) (u : unit) (s : float) (kw' : KwargsT)
    (out_shift : pyval * pyval) (tag : pyval) (kw2 : KwargsT) (c2 : VideoNode) :
  extra_kwargs kwargs ->
  concrete dar = true ->
  check_correct_subsampling clip width height = Ok u ->
  resolved_sar clip (if is_None sar then keep_ar else sar) = Ok s ->
  _handle_crop_resize_kwargs clip width height shift
    (if is_None sar then keep_ar else sar) dar kwargs = Ok (kw', out_shift, tag) ->
  get_scale_args clip out_shift width height kw' = Ok kw2 ->
  scale_function clip kw2 = Ok c2 ->
  (tag = PyNone <-> f_eqb s f1 = true) /\
  (f_eqb s f1 = false ->
   tag = PySar 1 /\
   (scale clip width height shift sar dar keep_ar kwargs out).2 = Sar_apply 1 c2).
Proof.
  intros Hx Hd Hc Hs Hh Hg Hf.
  assert (Hdar : (if is_None dar then keep_ar else dar) = dar)
    by (destruct dar; try reflexivity; discriminate).
  split.
  - rewrite (handle_crop_tag _ _ _ _ _ _ _ _ _ _ _ Hs Hh).
    destruct (f_eqb s f1); split; (reflexivity || discriminate).
  - intros Hn. apply (scale_nonsquare _ _ _ _ _ _ _ _ _ u s kw' out_shift tag kw2 c2);
      try assumption.
    rewrite Hdar. exact Hh.
Qed.

(** C2 (as amended).  The resolver never raises and returns the [sar] and
    [dar] values that are not [None] unchanged; it prints its warning whenever
    [keep_ar] is true and both [sar] and [dar] are not [None] (booleans
    included, not only concrete aspect values), and it prints nothing when
    [sar] or [dar] is [None]. *)
Theorem keep_ar_warning_policy (sar dar keep_ar : pyval) (kwargs : KwargsT)
    (out : list string) :
  extra_kwargs kwargs ->
  (exists kw',
     (_get_kwargs_keep_ar sar dar keep_ar kwargs out).2 = Ok kw' /\
     (is_None sar = false -> kw' !! "sar" = Some sar) /\
     (is_None dar = false -> kw' !! "dar" = Some dar)) /\
  (keep_ar = PyBool true -> is_None sar = false -> is_None dar = false ->
   (_get_kwargs_keep_ar sar dar keep_ar kwargs out).1
     = (out ++ [keep_ar_warning class_name])%list) /\
  (is_None sar = true \/ is_None dar = true ->
   (_get_kwargs_keep_ar sar dar keep_ar kwargs out).1 = out).
Proof.
  intros Hx. rewrite get_kwargs_keep_ar_spec by assumption. cbn [fst snd].
  split; [|split].
  - eexists. split; [reflexivity|]. split.
    + intros ->. by rewrite lookup_insert_eq.
    + intros ->. by rewrite lookup_insert_ne, lookup_insert_eq.
  - intros -> -> ->. reflexivity.
  - intros [-> | ->]; [|rewrite orb_true_r]; by rewrite ?orb_true_r.
Qed.

(** C3.  The corrector trims on at most one axis, and on exactly one when the
    source DAR differs from the target DAR (the code compares the two floats
    exactly): the width, by [crop.width - crop.height * target_dar], when
    the source DAR is the larger, and the height, by
    [crop.height - crop.width / target_dar], otherwise; the other axis keeps
    its offset and extent. *)
Theorem one_axis_trimmed (clip : VideoNode) (width height : Z) (shift : pyval * pyval)
    (sar dar : pyval) (kwargs : KwargsT) (old : CropWindow) (a : aspect) :
  crop_window (crop_defaults clip shift kwargs) = Ok old ->
  resolve_aspect clip width height sar dar = Ok a ->
  (f_eqb (src_dar a) (out_dar a) = false -> f_ltb (out_dar a) (src_dar a) = false ->
   f_eqb (out_dar a) f0 = false) ->
  exists kw' out_shift new,
    _handle_crop_resize_kwargs clip width height shift sar dar kwargs
      = Ok (kw', out_shift, out_sar a) /\
    crop_window_of out_shift kw' = Ok new /\
    ((f_eqb (src_dar a) (out_dar a) = true /\ new = old) \/
     (f_eqb (src_dar a) (out_dar a) = false /\ f_ltb (out_dar a) (src_dar a) = true /\
      new = trim_width old (out_dar a) /\
      cw_top new = cw_top old /\ cw_height new = cw_height old) \/
     (f_eqb (src_dar a) (out_dar a) = false /\ f_ltb (out_dar a) (src_dar a) = false /\
      new = trim_height old (out_dar a) /\
      cw_left new = cw_left old /\ cw_width new = cw_width old)).
Proof.
  intros Hw Ha Hz.
  destruct (handle_crop_spec _ _ _ _ _ _ _ _ _ Hw Ha Hz) as (kw' & sh & new & Hh & Hn & ->).
  exists kw', sh. eexists. split; [exact Hh|]. split; [exact Hn|].
  destruct (f_eqb (src_dar a) (out_dar a)).
  - left. auto.
  - right. destruct (f_ltb (out_dar a) (src_dar a)); [left | right]; auto.
Qed.


(** C6.  With both [sar] and [dar] given (not [None], so in particular with
    concrete values), a scale call with [keep_ar=True] prints and returns
    what the same call with [keep_ar=False] does; the resolver prints the
    warning, which is on the output once the subsampling check has passed. *)
Theorem keep_ar_noop_when_both_given (clip : VideoNode) (width height : Z)
    (shift : pyval * pyval) (sar dar : pyval) (kwargs : KwargsT) (out : list string) :
  extra_kwargs kwargs ->
  is_None sar = false ->
  is_None dar = false ->
  scale clip width height shift sar dar (PyBool true) kwargs out
    = scale clip width height shift sar dar (PyBool false) kwargs out /\
  _get_kwargs_keep_ar sar dar (PyBool true) kwargs out
    = ((out ++ [keep_ar_warning class_name])%list,
       Ok (<["sar" := sar]> (<["dar" := dar]> kwargs))) /\
  (forall u, check_correct_subsampling clip width height = Ok u ->
     (scale clip width height shift sar dar (PyBool true) kwargs out).1
       = (out ++ [keep_ar_warning class_name])%list).
Proof.
  intros Hx Hs Hd. split; [|split].
  - destruct (check_correct_subsampling clip width height) as [u|e] eqn:Hc.
    + rewrite !(scale_unfold _ _ _ _ _ _ _ _ _ u Hx Hc). rewrite Hs, Hd. reflexivity.
    + unfold scale, pbind, lift. rewrite Hc. reflexivity.
  - rewrite get_kwargs_keep_ar_spec by assumption. rewrite Hs, Hd. reflexivity.
  - intros u Hc. rewrite (scale_unfold _ _ _ _ _ _ _ _ _ u Hx Hc).
    rewrite Hs, Hd. reflexivity.
Qed.

(** C9 (as amended).  An override that is neither a boolean, nor an instance
    of the aspect value type, nor float-convertible raises nothing in
    [_from_param]: it resolves to [None], exactly as the auto-derivation
    value [True] does, for the SAR and for the DAR. *)
Theorem unrecognised_override_is_auto (cls : XarT) (value fallback : pyval) :
  (forall b, value <> PyBool b) ->
  isinstance_xar value cls = false ->
  isinstance_SupportsFloatOrIndex value = false ->
  _from_param cls value fallback = Ok PyNone /\
  _from_param cls value fallback = _from_param cls (PyBool true) fallback /\
  (forall clip, resolved_sar clip value = resolved_sar clip (PyBool true)) /\
  (forall width height src_dar,
     resolved_dar width height value src_dar
       = resolved_dar width height (PyBool true) src_dar).
Proof.
  intros Hb _ Hf.
  assert (Hp : forall c fb, _from_param c value fb = Ok PyNone).
  { intros c fb. destruct value; cbn in Hf; try discriminate Hf;
      destruct c; reflexivity. }
  repeat split.
  - apply Hp.
  - rewrite Hp. reflexivity.
  - intros clip. unfold resolved_sar. rewrite Hp. reflexivity.
  - intros w h d. unfold resolved_dar. rewrite Hp. reflexivity.
Qed.

End KeepArFacts.

(** ** The centre of the crop window, on exact rationals *)

Section KeepArExact.
#[local] Existing Instance exact.
Context {V : VSTools}.

Lemma handle_crop_spec_exact (clip : VideoNode) (width height : Z) (shift : pyval * pyval)
    (sar dar : pyval) (kwargs : KwargsT) (old : CropWindow) (a : aspect) :
  crop_window (crop_defaults clip shift kwargs) = Ok old ->
  resolve_aspect clip width height sar dar = Ok a ->
  ((src_dar a < out_dar a)%Qc -> out_dar a <> 0%Qc) ->
  exists kw' out_shift new,
    _handle_crop_resize_kwargs clip width height shift sar dar kwargs
      = Ok (kw', out_shift, out_sar a) /\
    crop_window_of out_shift kw' = Ok new /\
    new = (if f_eqb (src_dar a) (out_dar a) then old
           else if f_ltb (out_dar a) (src_dar a) then trim_width old (out_dar a)
           else trim_height old (out_dar a)).
Proof.
  intros Hw Ha Hz. apply handle_crop_spec; try assumption.
  intros Eq L. apply f_eqb_neq. apply Hz.
  apply f_ltb_ge in L. apply f_eqb_neq in Eq.
  apply Qcle_lt_or_eq in L. destruct L as [L|E]; [exact L | congruence].
Qed.

(** C4.  The correction keeps the centre of the crop window on both axes:
    [new_left + new_width/2 = old_left + old_width/2] and
    [new_top + new_height/2 = old_top + old_height/2], for every source and
    target DAR (exactly so on the rationals the floats stand for). *)
Theorem center_preserved (clip : VideoNode) (width height : Z) (shift : pyval * pyval)
    (sar dar : pyval) (kwargs : KwargsT) (old : CropWindow) (a : aspect) :
  crop_window (crop_defaults clip shift kwargs) = Ok old ->
  resolve_aspect clip width height sar dar = Ok a ->
  ((src_dar a < out_dar a)%Qc -> out_dar a <> 0%Qc) ->
  exists kw' out_shift new,
    _handle_crop_resize_kwargs clip width height shift sar dar kwargs
      = Ok (kw', out_shift, out_sar a) /\
    crop_window_of out_shift kw' = Ok new /\
    (cw_left new + cw_width new / 2 = cw_left old + cw_width old / 2)%Qc /\
    (cw_top new + cw_height new / 2 = cw_top old + cw_height old / 2)%Qc.
Proof.
  intros Hw Ha Hz.
  destruct (handle_crop_spec_exact _ _ _ _ _ _ _ _ _ Hw Ha Hz)
    as (kw' & sh & new & Hh & Hn & ->).
  exists kw', sh. eexists. split; [exact Hh|]. split; [exact Hn|].
  destruct (f_eqb (src_dar a) (out_dar a)); [split; reflexivity|].
  destruct (f_ltb (out_dar a) (src_dar a));
    unfold trim_width, trim_height; cbn [cw_top cw_left cw_width cw_height];
    split; try reflexivity; apply centre_kept.
Qed.

End KeepArExact.

(** ** The claims on [_BaseLinearOperation] *)

Section LinearFacts.
Context {F : FloatOps} {V : VSTools} {L : LinearLightScope}.

Lemma truthy_py_or (a b : pyval) : truthy (py_or a b) = truthy a || truthy b.
Proof.
  unfold py_or. destruct (truthy a) eqn:E; [exact E | reflexivity].
Qed.

(** Line 55, operand by operand: the first truthy one of the constructor's
    [linear], the per-call [linear] and the boolean of the sigmoid. *)
Lemma effective_linear_value (self : kernel) (linear sigmoid : pyval) :
  effective_linear self linear sigmoid
  = let l0 := default (PyBool false) (orig_kwargs self !! "linear") in
    if truthy l0 then l0 else if truthy linear then linear else PyBool (truthy sigmoid).
Proof.
  unfold effective_linear, dict_get_default, py_or. cbv zeta.
  destruct (truthy (default (PyBool false) (orig_kwargs self !! "linear"))) eqn:E0.
  - rewrite E0. reflexivity.
  - destruct (truthy linear) eqn:E1; [reflexivity|]. by rewrite negb_involutive.
Qed.

Lemma effective_linear_truthy (self : kernel) (linear sigmoid : pyval) :
  truthy (effective_linear self linear sigmoid)
  = truthy (default (PyBool false) (orig_kwargs self !! "linear"))
    || truthy linear || truthy sigmoid.
Proof.
  unfold effective_linear, dict_get_default. rewrite !truthy_py_or. cbn [truthy].
  by rewrite negb_involutive.
Qed.

(** A call on a kernel whose operation is found: the override when the class
    has one, else the inherited operation; directly, or between the two ends
    of the scoped transform. *)
Lemma linear_op_found (op_name : string) (self : kernel) (clip : VideoNode)
    (width height : Z) (shift : pyval * pyval) (linear sigmoid : pyval) (kwargs : KwargsT)
    (op : operation) (custom : bool) :
  (custom = true /\ class_attrs (kernel_cls self) ("_linear_" ++ op_name) = Some op) \/
  (custom = false /\ class_attrs (kernel_cls self) ("_linear_" ++ op_name) = None /\
   super_attrs (kernel_cls self) op_name = Some op) ->
  let sigmoid' := default sigmoid (orig_kwargs self !! "sigmoid") in
  let l0 := default (PyBool false) (orig_kwargs self !! "linear") in
  let linear' :=
    if truthy l0 then l0 else if truthy linear then linear else PyBool (truthy sigmoid') in
  let ll := {| ll_clip := clip; ll_linear := linear'; ll_sigmoid := sigmoid';
               ll_resampler := self; ll_out_fmt := default PyNone (kwargs !! "format") |} in
  _linear_op op_name self clip width height shift linear sigmoid kwargs =
    if negb (truthy l0 || truthy linear || truthy sigmoid') && negb custom then
      op clip width height shift kwargs
    else
      let! lin := to_linear ll in
      let! res := op lin width height shift (delete "format" kwargs) in
      from_linear ll res.
Proof.
  intros Hop sigmoid' l0 linear' ll.
  unfold _linear_op. cbv zeta.
  rewrite effective_linear_truthy, effective_linear_value. cbv zeta.
  unfold effective_sigmoid, dict_get_default, dict_pop_default, in_linear_light.
  fold sigmoid'. fold l0. fold linear'. fold ll.
  unfold hasattr, resolve_operation, getattr, getattr_super.
  destruct Hop as [(-> & Hc) | (-> & Hc & Hs)].
  - rewrite Hc. cbn [rbind]. reflexivity.
  - rewrite Hc, Hs. cbn [rbind]. reflexivity.
Qed.

(** C7 (as amended).  When the sigmoid value in effect is truthy -- the
    per-call argument on a kernel built without a [sigmoid] keyword, the
    constructor's value on a kernel built with one -- the effective linear
    mode is truthy whatever the [linear] argument is, and the operation found
    (the [_linear_<op>] override, or the inherited operation) runs between
    the two ends of the scoped linear-light transform: on the frame the
    transform gives, with the result handed back to it. *)
Theorem sigmoid_in_effect_forces_linear (op_name : string) (self : kernel)
    (clip : VideoNode) (width height : Z) (shift : pyval * pyval)
    (linear sigmoid : pyval) (kwargs : KwargsT) (op : operation) :
  (orig_kwargs self !! "sigmoid" = None /\ truthy sigmoid = true) \/
  (exists s0, orig_kwargs self !! "sigmoid" = Some s0 /\ truthy s0 = true) ->
  class_attrs (kernel_cls self) ("_linear_" ++ op_name) = Some op \/
  (class_attrs (kernel_cls self) ("_linear_" ++ op_name) = None /\
   super_attrs (kernel_cls self) op_name = Some op) ->
  let sigmoid' := default sigmoid (orig_kwargs self !! "sigmoid") in
  let l0 := default (PyBool false) (orig_kwargs self !! "linear") in
  let linear' := if truthy l0 then l0 else if truthy linear then linear else PyBool true in
  let ll := {| ll_clip := clip; ll_linear := linear'; ll_sigmoid := sigmoid';
               ll_resampler := self; ll_out_fmt := default PyNone (kwargs !! "format") |} in
  truthy linear' = true /\
  _linear_op op_name self clip width height shift linear sigmoid kwargs =
    let! lin := to_linear ll in
    let! res := op lin width height shift (delete "format" kwargs) in
    from_linear ll res.
Proof.
  intros Hs Hop sigmoid' l0 linear' ll.
  assert (Ht : truthy sigmoid' = true).
  { unfold sigmoid'. destruct Hs as [(-> & Ht) | (s0 & -> & Ht)]; exact Ht. }
  split.
  { unfold linear'. destruct (truthy l0) eqn:E0; [exact E0|].
    destruct (truthy linear) eqn:E1; [exact E1 | reflexivity]. }
  destruct Hop as [Hc | (Hc & Hp)].
  - rewrite (linear_op_found op_name self clip width height shift linear sigmoid kwargs
               op true) by (left; auto).
    cbv zeta. fold sigmoid'. fold l0. rewrite Ht, andb_false_r. reflexivity.
  - rewrite (linear_op_found op_name self clip width height shift linear sigmoid kwargs
               op false) by (right; auto).
    cbv zeta. fold sigmoid'. fold l0. rewrite Ht, !orb_true_r. reflexivity.
Qed.

(** C8.  A kernel with a [_linear_scale] or [_linear_descale] of its own has
    that override invoked inside the scoped linear-light transform (on the
    frame the transform gives, its result handed back to the transform),
    whatever [linear] and [sigmoid] are; a kernel without one has the
    default-space operation invoked directly on the input frame exactly when
    none of the constructor's [linear], the per-call [linear] and the sigmoid
    in effect is truthy, and inside the scoped transform otherwise. *)
Theorem custom_op_runs_in_linear_light (op_name : string) (self : kernel)
    (clip : VideoNode) (width height : Z) (shift : pyval * pyval)
    (linear sigmoid : pyval) (kwargs : KwargsT) :
  let sigmoid' := default sigmoid (orig_kwargs self !! "sigmoid") in
  let l0 := default (PyBool false) (orig_kwargs self !! "linear") in
  let linear' :=
    if truthy l0 then l0 else if truthy linear then linear else PyBool (truthy sigmoid') in
  let ll := {| ll_clip := clip; ll_linear := linear'; ll_sigmoid := sigmoid';
               ll_resampler := self; ll_out_fmt := default PyNone (kwargs !! "format") |} in
  (forall custom,
     class_attrs (kernel_cls self) ("_linear_" ++ op_name) = Some custom ->
     _linear_op op_name self clip width height shift linear sigmoid kwargs =
       let! lin := to_linear ll in
       let! res := custom lin width height shift (delete "format" kwargs) in
       from_linear ll res) /\
  (forall plain,
     class_attrs (kernel_cls self) ("_linear_" ++ op_name) = None ->
     super_attrs (kernel_cls self) op_name = Some plain ->
     _linear_op op_name self clip width height shift linear sigmoid kwargs =
       if truthy l0 || truthy linear || truthy sigmoid' then
         let! lin := to_linear ll in
         let! res := plain lin width height shift (delete "format" kwargs) in
         from_linear ll res
       else plain clip width height shift kwargs).
Proof.
  intros sigmoid' l0 linear' ll. split.
  - intros custom Hc.
    rewrite (linear_op_found op_name self clip width height shift linear sigmoid kwargs
               custom true) by (left; auto).
    cbv zeta. rewrite andb_false_r. reflexivity.
  - intros plain Hc Hp.
    rewrite (linear_op_found op_name self clip width height shift linear sigmoid kwargs
               plain false) by (right; auto).
    cbv zeta. fold sigmoid'. fold l0. rewrite andb_true_r.
    destruct (truthy l0 || truthy linear || truthy sigmoid'); reflexivity.
Qed.

(** C10.  On a kernel constructed with a [sigmoid] keyword every call runs
    with the constructor's value as its sigmoid and without reading the
    per-call argument, also when the constructor's value is [False]: the
    scoped transform is built with the constructor's sigmoid, and a kernel
    without an override is called directly exactly when the constructor's
    [linear], the per-call [linear] and the constructor's sigmoid are all
    falsy.  The constructor's [linear] is or-combined with the per-call
    [linear]: it is the linear flag of the transform when truthy, and the
    per-call value is when the constructor's is falsy. *)
Theorem constructor_sigmoid_replaces (cls : kernel_class) (ctor_kwargs : KwargsT)
    (s0 : pyval) (op_name : string) (clip : VideoNode) (width height : Z)
    (shift : pyval * pyval) (linear sigmoid : pyval) (kwargs : KwargsT) :
  ctor_kwargs !! "sigmoid" = Some s0 ->
  let self := __init__ cls ctor_kwargs in
  let l0 := default (PyBool false) (ctor_kwargs !! "linear") in
  let linear' := if truthy l0 then l0 else if truthy linear then linear else PyBool (truthy s0) in
  let ll := {| ll_clip := clip; ll_linear := linear'; ll_sigmoid := s0;
               ll_resampler := self; ll_out_fmt := default PyNone (kwargs !! "format") |} in
  (forall custom,
     class_attrs cls ("_linear_" ++ op_name) = Some custom ->
     _linear_op op_name self clip width height shift linear sigmoid kwargs =
       let! lin := to_linear ll in
       let! res := custom lin width height shift (delete "format" kwargs) in
       from_linear ll res) /\
  (forall plain,
     class_attrs cls ("_linear_" ++ op_name) = None ->
     super_attrs cls op_name = Some plain ->
     _linear_op op_name self clip width height shift linear sigmoid kwargs =
       if truthy l0 || truthy linear || truthy s0 then
         let! lin := to_linear ll in
         let! res := plain lin width height shift (delete "format" kwargs) in
         from_linear ll res
       else plain clip width height shift kwargs).
Proof.
  intros Hs self l0 linear' ll. split.
  - intros custom Hc.
    rewrite (linear_op_found op_name self clip width height shift linear sigmoid kwargs
               custom true) by (left; auto).
    cbv zeta. cbn [orig_kwargs __init__ self]. rewrite Hs. cbn [default from_option id].
    rewrite andb_false_r. reflexivity.
  - intros plain Hc Hp.
    rewrite (linear_op_found op_name self clip width height shift linear sigmoid kwargs
               plain false) by (right; auto).
    cbv zeta. cbn [orig_kwargs __init__ self]. rewrite Hs. cbn [default from_option id].
    fold l0. rewrite andb_true_r.
    destruct (truthy l0 || truthy linear || truthy s0); reflexivity.
Qed.

End LinearFacts.

(** ** Further properties of [KeepArScaler] *)

Section DictFacts.
Context {F : FloatOps}.

(** One alias line of the corrector:
    [kwargs.setdefault(key, kwargs.pop(alias, dflt))]. *)
Lemma setdefault_pop_lookup (kwargs : KwargsT) (alias key : string) (dflt : pyval)
    (j : string) :
  alias <> key ->
  dict_setdefault (delete alias kwargs) key (default dflt (kwargs !! alias)) !! j
  = if decide (j = key) then Some (default (default dflt (kwargs !! alias)) (kwargs !! key))
    else if decide (j = alias) then None
    else kwargs !! j.
Proof.
  intros Hne. unfold dict_setdefault.
  rewrite (lookup_delete_ne kwargs alias key) by done.
  destruct (kwargs !! key) as [v|] eqn:Hk.
  - destruct (decide (j = key)) as [->|Nk].
    + by rewrite lookup_delete_ne, Hk.
    + destruct (decide (j = alias)) as [->|Na].
      * by rewrite lookup_delete_eq.
      * by rewrite lookup_delete_ne.
  - destruct (decide (j = key)) as [->|Nk].
    + by rewrite lookup_insert_eq.
    + rewrite lookup_insert_ne by done.
      destruct (decide (j = alias)) as [->|Na].
      * by rewrite lookup_delete_eq.
      * by rewrite lookup_delete_ne.
Qed.

Lemma setdefault_pop_key (kwargs : KwargsT) (alias key : string) (dflt : pyval) :
  alias <> key ->
  dict_setdefault (delete alias kwargs) key (default dflt (kwargs !! alias)) !! key
  = Some (default (default dflt (kwargs !! alias)) (kwargs !! key)).
Proof.
  intros Hne. rewrite setdefault_pop_lookup by done. by rewrite decide_True.
Qed.

Lemma setdefault_pop_alias (kwargs : KwargsT) (alias key : string) (dflt : pyval) :
  alias <> key ->
  dict_setdefault (delete alias kwargs) key (default dflt (kwargs !! alias)) !! alias = None.
Proof.
  intros Hne. rewrite setdefault_pop_lookup by done.
  rewrite decide_False by done. by rewrite decide_True.
Qed.

Lemma setdefault_pop_other (kwargs : KwargsT) (alias key : string) (dflt : pyval)
    (j : string) :
  j <> key -> j <> alias ->
  dict_setdefault (delete alias kwargs) key (default dflt (kwargs !! alias)) !! j
  = kwargs !! j.
Proof.
  intros Nk Na. unfold dict_setdefault.
  destruct (delete alias kwargs !! key).
  - by rewrite lookup_delete_ne.
  - by rewrite lookup_insert_ne, lookup_delete_ne.
Qed.

End DictFacts.

(** Side conditions on key names *)
Ltac kw_ne := done.

Ltac kw_notin :=
  rewrite !not_elem_of_cons; repeat split; try done; apply not_elem_of_nil.

Section KeepArMore.
Context {F : FloatOps} {V : VSTools} {S : Scaler}.

(** Every entry of the dictionary after lines 116-119. *)
Lemma crop_defaults_lookup (clip : VideoNode) (shift : pyval * pyval) (kwargs : KwargsT)
    (j : string) :
  crop_defaults clip shift kwargs !! j
  = if decide (j = "src_top") then
      Some (default (default shift.1 (kwargs !! "sy")) (kwargs !! "src_top"))
    else if decide (j = "src_left") then
      Some (default (default shift.2 (kwargs !! "sx")) (kwargs !! "src_left"))
    else if decide (j = "src_width") then
      Some (default (default (PyInt (clip_width clip)) (kwargs !! "sw")) (kwargs !! "src_width"))
    else if decide (j = "src_height") then
      Some (default (default (PyInt (clip_height clip)) (kwargs !! "sh")) (kwargs !! "src_height"))
    else if decide (j ∈ ["sy"; "sx"; "sw"; "sh"]) then None
    else kwargs !! j.
Proof.
  unfold crop_defaults, dict_pop_default. cbv beta iota zeta.
  set (k1 := dict_setdefault (delete "sy" kwargs) "src_top" _).
  set (k2 := dict_setdefault (delete "sx" k1) "src_left" _).
  set (k3 := dict_setdefault (delete "sw" k2) "src_width" _).
  assert (L1 : forall i, k1 !! i = dict_setdefault (delete "sy" kwargs) "src_top"
                                     (default shift.1 (kwargs !! "sy")) !! i) by done.
  assert (L2 : forall i, k2 !! i = dict_setdefault (delete "sx" k1) "src_left"
                                     (default shift.2 (k1 !! "sx")) !! i) by done.
  assert (L3 : forall i, k3 !! i = dict_setdefault (delete "sw" k2) "src_width"
                                     (default (PyInt (clip_width clip)) (k2 !! "sw")) !! i) by done.
  clearbody k1 k2 k3.
  destruct (decide (j = "src_top")) as [->|N1].
  { rewrite setdefault_pop_other, L3, setdefault_pop_other, L2, setdefault_pop_other, L1 by kw_ne.
    rewrite setdefault_pop_key by kw_ne. reflexivity. }
  destruct (decide (j = "src_left")) as [->|N2].
  { rewrite setdefault_pop_other, L3, setdefault_pop_other, L2 by kw_ne.
    rewrite setdefault_pop_key by kw_ne.
    rewrite !L1, !setdefault_pop_other by kw_ne. reflexivity. }
  destruct (decide (j = "src_width")) as [->|N3].
  { rewrite setdefault_pop_other, L3 by kw_ne. rewrite setdefault_pop_key by kw_ne.
    rewrite !L2, !setdefault_pop_other by kw_ne. rewrite !L1, !setdefault_pop_other by kw_ne. reflexivity. }
  destruct (decide (j = "src_height")) as [->|N4].
  { rewrite setdefault_pop_key by kw_ne.
    rewrite !L3, !setdefault_pop_other by kw_ne.
    rewrite !L2, !setdefault_pop_other by kw_ne. rewrite !L1, !setdefault_pop_other by kw_ne. reflexivity. }
  destruct (decide (j ∈ ["sy"; "sx"; "sw"; "sh"])) as [Hin|Hn].
  - rewrite !elem_of_cons, elem_of_nil in Hin.
    destruct Hin as [->|[->|[->|[->|[]]]]].
    + rewrite setdefault_pop_other, L3, setdefault_pop_other, L2, setdefault_pop_other, L1 by kw_ne.
      rewrite setdefault_pop_alias by kw_ne. reflexivity.
    + rewrite setdefault_pop_other, L3, setdefault_pop_other, L2 by kw_ne.
      rewrite setdefault_pop_alias by kw_ne. reflexivity.
    + rewrite setdefault_pop_other, L3 by kw_ne. rewrite setdefault_pop_alias by kw_ne. reflexivity.
    + rewrite setdefault_pop_alias by kw_ne. reflexivity.
  - rewrite !not_elem_of_cons in Hn. destruct Hn as (A1 & A2 & A3 & A4 & _).
    rewrite setdefault_pop_other, L3, setdefault_pop_other, L2, setdefault_pop_other, L1 by kw_ne.
    rewrite setdefault_pop_other by kw_ne. reflexivity.
Qed.

(** The keys of the dictionary after lines 116-119. *)
Lemma crop_defaults_entries (clip : VideoNode) (shift : pyval * pyval) (kwargs : KwargsT) :
  (forall k, k ∈ ["src_top"; "src_left"; "src_width"; "src_height"] ->
     is_Some (crop_defaults clip shift kwargs !! k)) /\
  (forall k, k ∈ ["sy"; "sx"; "sw"; "sh"] -> crop_defaults clip shift kwargs !! k = None) /\
  (forall k, k ∉ ["src_top"; "src_left"; "src_width"; "src_height"; "sy"; "sx"; "sw"; "sh"] ->
     crop_defaults clip shift kwargs !! k = kwargs !! k).
Proof.
  split; [|split]; intros k Hk; rewrite crop_defaults_lookup.
  - rewrite !elem_of_cons, elem_of_nil in Hk.
    destruct Hk as [->|[->|[->|[->|[]]]]]; cbn; eauto.
  - rewrite !elem_of_cons, elem_of_nil in Hk.
    destruct Hk as [->|[->|[->|[->|[]]]]]; reflexivity.
  - rewrite !not_elem_of_cons in Hk.
    destruct Hk as (N1 & N2 & N3 & N4 & A1 & A2 & A3 & A4 & _).
    rewrite !decide_False; [reflexivity | kw_notin | done | done | done | done].
Qed.

(** The four sides of the source window after lines 116-119. *)
Lemma crop_defaults_sides (clip : VideoNode) (shift : pyval * pyval)
    (kwargs : KwargsT) :
  crop_defaults clip shift kwargs !! "src_top"
    = Some (default (default shift.1 (kwargs !! "sy")) (kwargs !! "src_top")) /\
  crop_defaults clip shift kwargs !! "src_left"
    = Some (default (default shift.2 (kwargs !! "sx")) (kwargs !! "src_left")) /\
  crop_defaults clip shift kwargs !! "src_width"
    = Some (default (default (PyInt (clip_width clip)) (kwargs !! "sw"))
              (kwargs !! "src_width")) /\
  crop_defaults clip shift kwargs !! "src_height"
    = Some (default (default (PyInt (clip_height clip)) (kwargs !! "sh"))
              (kwargs !! "src_height")).
Proof.
  repeat split; rewrite crop_defaults_lookup; reflexivity.
Qed.

(** With equal DARs lines 137-150 are skipped. *)
Lemma handle_crop_untouched (clip : VideoNode) (width height : Z)
    (shift : pyval * pyval) (sar dar : pyval) (kwargs : KwargsT) (a : aspect) :
  resolve_aspect clip width height sar dar = Ok a ->
  f_eqb (src_dar a) (out_dar a) = true ->
  _handle_crop_resize_kwargs clip width height shift sar dar kwargs
  = Ok (delete "src_left" (delete "src_top" (crop_defaults clip shift kwargs)),
        (default (default shift.1 (kwargs !! "sy")) (kwargs !! "src_top"),
         default (default shift.2 (kwargs !! "sx")) (kwargs !! "src_left")),
        out_sar a).
Proof.
  intros Ha Hd. unfold _handle_crop_resize_kwargs.
  destruct (crop_defaults_sides clip shift kwargs) as (Lt & Ll & Lw & Lh).
  set (kw0 := crop_defaults clip shift kwargs) in *. clearbody kw0.
  unfold dict_item. rewrite Lw, Lh. cbn [rbind]. rewrite Ha. cbn [rbind].
  unfold center_crop. rewrite Hd. cbn [negb rbind].
  unfold dict_pop. rewrite Lt. cbn [rbind]. rewrite lookup_delete_ne, Ll by done.
  reflexivity.
Qed.

(** X1.  After the alias lines the dictionary holds the four [src_*] entries
    and none of the aliases [sy], [sx], [sw], [sh]; every other keyword is
    left as the caller gave it. *)
Theorem crop_defaults_keys (clip : VideoNode) (shift : pyval * pyval) (kwargs : KwargsT) :
  (forall k, k ∈ ["src_top"; "src_left"; "src_width"; "src_height"] ->
     is_Some (crop_defaults clip shift kwargs !! k)) /\
  (forall k, k ∈ ["sy"; "sx"; "sw"; "sh"] -> crop_defaults clip shift kwargs !! k = None) /\
  (forall k, k ∉ ["src_top"; "src_left"; "src_width"; "src_height"; "sy"; "sx"; "sw"; "sh"] ->
     crop_defaults clip shift kwargs !! k = kwargs !! k).
Proof.
  exact (crop_defaults_entries clip shift kwargs).
Qed.

(** X2.  Each side of the source window is the explicit [src_*] keyword when
    given, else its alias, else the default: the shift (vertical first) for
    the offsets and the clip's size for the extent. *)
Theorem crop_defaults_precedence (clip : VideoNode) (shift : pyval * pyval)
    (kwargs : KwargsT) :
  crop_defaults clip shift kwargs !! "src_top"
    = Some (default (default shift.1 (kwargs !! "sy")) (kwargs !! "src_top")) /\
  crop_defaults clip shift kwargs !! "src_left"
    = Some (default (default shift.2 (kwargs !! "sx")) (kwargs !! "src_left")) /\
  crop_defaults clip shift kwargs !! "src_width"
    = Some (default (default (PyInt (clip_width clip)) (kwargs !! "sw"))
              (kwargs !! "src_width")) /\
  crop_defaults clip shift kwargs !! "src_height"
    = Some (default (default (PyInt (clip_height clip)) (kwargs !! "sh"))
              (kwargs !! "src_height")).
Proof.
  exact (crop_defaults_sides clip shift kwargs).
Qed.

Lemma choose_trim_keys (src_res : Resolution) (sd od : float) (s w : string) (fc : float) :
  choose_trim src_res sd od = Ok (s, w, fc) ->
  (s = "src_left" /\ w = "src_width") \/ (s = "src_top" /\ w = "src_height").
Proof.
  unfold choose_trim. destruct (f_ltb od sd); intros Hc;
    repeat (apply rbind_Ok in Hc; destruct Hc as (? & _ & Hc));
    injection Hc as <- <- _; auto.
Qed.

(** The centre crop rewrites existing window entries only. *)
Lemma center_crop_lookup (src_res : Resolution) (sd od : float) (kwargs kwc : KwargsT) :
  center_crop src_res sd od kwargs = Ok kwc ->
  (forall k, k ∉ ["src_top"; "src_left"; "src_width"; "src_height"] ->
     kwc !! k = kwargs !! k) /\
  (forall k, is_Some (kwargs !! k) -> is_Some (kwc !! k)).
Proof.
  unfold center_crop. destruct (negb (f_eqb sd od)).
  - intros Hc. apply rbind_Ok in Hc. destruct Hc as ([[s w] fc] & Ht & Hc).
    apply rbind_Ok in Hc. destruct Hc as (v & _ & Hc).
    apply rbind_Ok in Hc. destruct Hc as (nv & _ & Hc).
    apply rbind_Ok in Hc. destruct Hc as (u & _ & Hc).
    apply rbind_Ok in Hc. destruct Hc as (nu & _ & Hc).
    injection Hc as <-.
    apply choose_trim_keys in Ht. split.
    + intros k Hk. rewrite !not_elem_of_cons in Hk. destruct Hk as (N1 & N2 & N3 & N4 & _).
      destruct Ht as [(-> & ->)|(-> & ->)]; by rewrite !lookup_insert_ne.
    + intros k Hk. rewrite !lookup_insert_is_Some'. auto.
  - intros [= <-]. auto.
Qed.

(** X3.  What the corrector hands on: the offsets leave the dictionary for
    the returned shift, the aliases are gone, the extent stays, and every
    other keyword is passed through untouched. *)
Theorem handle_crop_output_keys (clip : VideoNode) (width height : Z)
    (shift : pyval * pyval) (sar dar : pyval) (kwargs kw' : KwargsT)
    (out_shift : pyval * pyval) (tag : pyval) :
  _handle_crop_resize_kwargs clip width height shift sar dar kwargs
    = Ok (kw', out_shift, tag) ->
  (forall k, k ∈ ["src_top"; "src_left"; "sy"; "sx"; "sw"; "sh"] -> kw' !! k = None) /\
  is_Some (kw' !! "src_width") /\ is_Some (kw' !! "src_height") /\
  (forall k, k ∉ ["src_top"; "src_left"; "src_width"; "src_height"; "sy"; "sx"; "sw"; "sh"] ->
     kw' !! k = kwargs !! k).
Proof.
  unfold _handle_crop_resize_kwargs. intros Hh.
  destruct (crop_defaults_entries clip shift kwargs) as (K1 & K2 & K3).
  set (kw0 := crop_defaults clip shift kwargs) in *. clearbody kw0.
  apply rbind_Ok in Hh. destruct Hh as (vw & _ & Hh).
  apply rbind_Ok in Hh. destruct Hh as (vh & _ & Hh).
  apply rbind_Ok in Hh. destruct Hh as (a & _ & Hh).
  apply rbind_Ok in Hh. destruct Hh as (kwc & Hc & Hh).
  apply center_crop_lookup in Hc. destruct Hc as (C1 & C2).
  unfold dict_pop in Hh.
  destruct (kwc !! "src_top") as [t|]; [|discriminate]. cbn [rbind] in Hh.
  destruct (delete "src_top" kwc !! "src_left") as [l|]; [|discriminate]. cbn [rbind] in Hh.
  injection Hh as <- _ _.
  split; [|split; [|split]].
  - intros k Hk. rewrite !elem_of_cons, elem_of_nil in Hk.
    destruct Hk as [->|[->|[->|[->|[->|[->|[]]]]]]].
    + by rewrite lookup_delete_ne, lookup_delete_eq.
    + by rewrite lookup_delete_eq.
    + rewrite !lookup_delete_ne by done. rewrite C1 by kw_notin. apply K2. set_solver.
    + rewrite !lookup_delete_ne by done. rewrite C1 by kw_notin. apply K2. set_solver.
    + rewrite !lookup_delete_ne by done. rewrite C1 by kw_notin. apply K2. set_solver.
    + rewrite !lookup_delete_ne by done. rewrite C1 by kw_notin. apply K2. set_solver.
  - rewrite !lookup_delete_ne by done. apply C2, K1. set_solver.
  - rewrite !lookup_delete_ne by done. apply C2, K1. set_solver.
  - intros k Hk. pose proof Hk as Hk'.
    rewrite !not_elem_of_cons in Hk. destruct Hk as (N1 & N2 & N3 & N4 & _).
    rewrite !lookup_delete_ne by done. rewrite C1 by kw_notin. by apply K3.
Qed.

(** X4.  When the source and target DARs compare equal the corrector touches
    nothing: it returns the source window as lines 116-119 left it, numeric
    or not, with the offsets as the shift. *)
Theorem matching_dar_leaves_window (clip : VideoNode) (width height : Z)
    (shift : pyval * pyval) (sar dar : pyval) (kwargs : KwargsT) (a : aspect) :
  resolve_aspect clip width height sar dar = Ok a ->
  f_eqb (src_dar a) (out_dar a) = true ->
  _handle_crop_resize_kwargs clip width height shift sar dar kwargs
  = Ok (delete "src_left" (delete "src_top" (crop_defaults clip shift kwargs)),
        (default (default shift.1 (kwargs !! "sy")) (kwargs !! "src_top"),
         default (default shift.2 (kwargs !! "sx")) (kwargs !! "src_left")),
        out_sar a).
Proof.
  exact (handle_crop_untouched clip width height shift sar dar kwargs a).
Qed.

(** X5.  A source width that is not a number raises [TypeError] as soon as
    the DARs compare different (it is needed for the excess on either axis),
    unless the conversion of the source height, which the width trim
    evaluates first, raises something else. *)
Theorem non_numeric_width_raises (clip : VideoNode) (width height : Z)
    (shift : pyval * pyval) (sar dar : pyval) (kwargs : KwargsT) (a : aspect) :
  resolve_aspect clip width height sar dar = Ok a ->
  f_eqb (src_dar a) (out_dar a) = false ->
  py_num (default (default (PyInt (clip_width clip)) (kwargs !! "sw"))
            (kwargs !! "src_width")) = Raise TypeError ->
  (forall e, py_num (default (default (PyInt (clip_height clip)) (kwargs !! "sh"))
                       (kwargs !! "src_height")) = Raise e -> e = TypeError) ->
  _handle_crop_resize_kwargs clip width height shift sar dar kwargs = Raise TypeError.
Proof.
  intros Ha Hd Hn Hh. unfold _handle_crop_resize_kwargs.
  destruct (crop_defaults_sides clip shift kwargs) as (_ & _ & Lw & Lh).
  set (kw0 := crop_defaults clip shift kwargs) in *. clearbody kw0.
  unfold dict_item at 1 2. rewrite Lw, Lh. cbn [rbind]. rewrite Ha. cbn [rbind].
  unfold center_crop. rewrite Hd. cbn [negb].
  unfold choose_trim. cbn [res_width res_height]. rewrite Hn.
  destruct (f_ltb (out_dar a) (src_dar a)); [|reflexivity].
  destruct (py_num (default (default (PyInt (clip_height clip)) (kwargs !! "sh"))
                      (kwargs !! "src_height"))) as [h|e] eqn:Eh; [reflexivity|].
  rewrite (Hh e eq_refl). reflexivity.
Qed.

(** X6.  A numeric override that converts to a zero ratio is falsy, so it
    does not force a zero aspect ratio: the SAR is then read from the clip
    and the DAR taken from the target size, as for auto-derivation. *)
Theorem zero_override_is_auto (clip : VideoNode) (width height : Z) (v : pyval)
    (src_dar : float) :
  concrete v = true ->
  isinstance_SupportsFloatOrIndex v = true ->
  (isinstance_xar v Sar = false -> from_float Sar v = Ok 0%Qc ->
   resolved_sar clip v = let! r := Sar_from_clip clip in f_of_frac r) /\
  (isinstance_xar v Dar = false -> from_float Dar v = Ok 0%Qc ->
   resolved_dar width height v src_dar
     = let! r := Dar_from_size width height in f_of_frac r).
Proof.
  intros Hc Hf. split; intros Hi Hz.
  - unfold resolved_sar, _from_param. rewrite Hi, Hf, Hz.
    destruct v; try discriminate Hc; cbn; destruct (Sar_from_clip clip); reflexivity.
  - unfold resolved_dar, _from_param. rewrite Hi, Hf, Hz.
    destruct v; try discriminate Hc; cbn; destruct (Dar_from_size width height); reflexivity.
Qed.

Lemma resolve_aspect_inv (clip : VideoNode) (width height : Z) (sar dar : pyval)
    (a : aspect) :
  resolve_aspect clip width height sar dar = Ok a ->
  exists d od,
    resolved_sar clip sar = Ok (src_sar a) /\
    Dar_from_size_clip clip = Ok d /\ f_of_frac d = Ok (src_dar a) /\
    resolved_dar width height dar (src_dar a) = Ok od /\
    (if f_eqb (src_sar a) f1 then out_dar a = od /\ out_sar a = PyNone
     else out_sar a = PySar 1 /\
          nonsquare_dar width height (src_sar a) = Ok (out_dar a)).
Proof.
  unfold resolve_aspect. intros Ha.
  apply rbind_Ok in Ha. destruct Ha as (s & Hs & Ha).
  apply rbind_Ok in Ha. destruct Ha as (d & Hd & Ha).
  cbn [py_float py_num] in Ha.
  apply rbind_Ok in Ha. destruct Ha as (x & Hx & Ha).
  apply rbind_Ok in Ha. destruct Ha as (od & Ho & Ha).
  exists d, od.
  destruct (f_eqb s f1) eqn:E; cbn [negb] in Ha.
  - injection Ha as <-. cbn. rewrite E. auto 10.
  - apply rbind_Ok in Ha. destruct Ha as (od' & Ho' & Ha).
    injection Ha as <-. cbn. rewrite E. auto 10.
Qed.

(** X7.  On a non-square source the target DAR is recomputed from the target
    size and the source SAR alone: whatever [dar] the caller passed, explicit
    or not, the resolved aspect is the same. *)
Theorem nonsquare_target_dar_ignores_dar (clip : VideoNode) (width height : Z)
    (sar dar dar' : pyval) (a a' : aspect) :
  resolve_aspect clip width height sar dar = Ok a ->
  resolve_aspect clip width height sar dar' = Ok a' ->
  f_eqb (src_sar a) f1 = false ->
  a = a'.
Proof.
  intros Ha Ha' Hn.
  apply resolve_aspect_inv in Ha. destruct Ha as (d & od & Hs & Hd & Hsd & _ & Hc).
  apply resolve_aspect_inv in Ha'. destruct Ha' as (d' & od' & Hs' & Hd' & Hsd' & _ & Hc').
  assert (Es : src_sar a' = src_sar a) by congruence.
  assert (Ed : src_dar a' = src_dar a) by congruence.
  rewrite Es in Hc'. rewrite Hn in Hc, Hc'.
  destruct Hc as (Ht & Ho), Hc' as (Ht' & Ho').
  assert (Eo : out_dar a' = out_dar a) by congruence.
  destruct a, a'. cbn in *. congruence.
Qed.

(** X11.  A square-pixel source is never tagged: when the resolved SAR
    compares equal to 1.0 the call returns the resampled frame as the primitive gave it. *)
Theorem square_source_untagged (clip : VideoNode) (width height : Z)
    (shift : pyval * pyval) (sar dar keep_ar : pyval) (kwargs : KwargsT)
    (out : list string) (u : unit) (s : float) (kw' : KwargsT)
    (out_shift : pyval * pyval) (tag : pyval) (kw2 : KwargsT) :
  extra_kwargs kwargs ->
  check_correct_subsampling clip width height = Ok u ->
  resolved_sar clip (if is_None sar then keep_ar else sar) = Ok s ->
  f_eqb s f1 = true ->
  _handle_crop_resize_kwargs clip width height shift
    (if is_None sar then keep_ar else sar)
    (if is_None dar then keep_ar else dar) kwargs = Ok (kw', out_shift, tag) ->
  get_scale_args clip out_shift width height kw' = Ok kw2 ->
  tag = PyNone /\
  (scale clip width height shift sar dar keep_ar kwargs out).2 = scale_function clip kw2.
Proof.
  intros Hx Hc Hs He Hh Hg.
  assert (Ht : tag = PyNone)
    by (rewrite (handle_crop_tag _ _ _ _ _ _ _ _ _ _ _ Hs Hh), He; reflexivity).
  split; [exact Ht|].
  rewrite (scale_unfold _ _ _ _ _ _ _ _ _ u Hx Hc). cbn [snd].
  rewrite Hh. cbn [rbind fst snd]. rewrite Hg. cbn [rbind]. rewrite Ht. cbn [truthy].
  apply rbind_ret.
Qed.

(** X13.  The warning does not look at the value of [keep_ar]: with [sar]
    and [dar] both given it is printed for every [keep_ar] that is not
    [None], the default [False] included, and [keep_ar=None] silences it. *)
Theorem warning_ignores_keep_ar_value (sar dar : pyval) (kwargs : KwargsT)
    (out : list string) :
  extra_kwargs kwargs ->
  is_None sar = false ->
  is_None dar = false ->
  (forall keep_ar, is_None keep_ar = false ->
     (_get_kwargs_keep_ar sar dar keep_ar kwargs out).1
       = (out ++ [keep_ar_warning class_name])%list) /\
  (_get_kwargs_keep_ar sar dar (PyBool false) kwargs out).1
    = (out ++ [keep_ar_warning class_name])%list /\
  (_get_kwargs_keep_ar sar dar PyNone kwargs out).1 = out.
Proof.
  intros Hx Hs Hd. split; [|split].
  - intros keep_ar Hk. rewrite get_kwargs_keep_ar_spec by assumption. cbn [fst].
    rewrite Hk, Hs, Hd. reflexivity.
  - rewrite get_kwargs_keep_ar_spec by assumption. cbn [fst is_None].
    rewrite Hs, Hd. reflexivity.
  - rewrite get_kwargs_keep_ar_spec by assumption. reflexivity.
Qed.

(** X14.  What the resolver returns: the [keep_ar] entry is gone, an axis
    left at [None] holds the value of [keep_ar], a given axis keeps its
    value, and the other keywords are untouched. *)
Theorem resolver_output (sar dar keep_ar : pyval) (kwargs : KwargsT) (out : list string) :
  extra_kwargs kwargs ->
  exists kw',
    (_get_kwargs_keep_ar sar dar keep_ar kwargs out).2 = Ok kw' /\
    kw' !! "keep_ar" = None /\
    kw' !! "sar" = Some (if is_None sar then keep_ar else sar) /\
    kw' !! "dar" = Some (if is_None dar then keep_ar else dar) /\
    (forall k, k <> "sar" -> k <> "dar" -> kw' !! k = kwargs !! k).
Proof.
  intros Hx. rewrite get_kwargs_keep_ar_spec by assumption. cbn [snd].
  eexists. split; [reflexivity|]. destruct Hx as (_ & _ & Hk).
  repeat split.
  - by rewrite !lookup_insert_ne.
  - by rewrite lookup_insert_eq.
  - by rewrite lookup_insert_ne, lookup_insert_eq.
  - intros k Ns Nd. by rewrite !lookup_insert_ne.
Qed.

(** X15.  [keep_ar] is shorthand for the axes left unset: a call with [sar]
    (or [dar]) at [None] returns what the call with that axis set to the
    value of [keep_ar] returns. *)
Theorem unset_axis_takes_keep_ar (clip : VideoNode) (width height : Z)
    (shift : pyval * pyval) (sar dar keep_ar : pyval) (kwargs : KwargsT)
    (out : list string) :
  extra_kwargs kwargs ->
  (scale clip width height shift PyNone dar keep_ar kwargs out).2
    = (scale clip width height shift keep_ar dar keep_ar kwargs out).2 /\
  (scale clip width height shift sar PyNone keep_ar kwargs out).2
    = (scale clip width height shift sar keep_ar keep_ar kwargs out).2.
Proof.
  intros Hx.
  assert (Hk : forall v : pyval, (if is_None v then v else v) = v) by (by intros []).
  destruct (check_correct_subsampling clip width height) as [u|e] eqn:Hc.
  - rewrite !(scale_unfold _ _ _ _ _ _ _ _ _ u Hx Hc). cbn [snd is_None].
    rewrite !Hk. split; reflexivity.
  - unfold scale, pbind, lift. rewrite Hc. split; reflexivity.
Qed.

(** X16.  A scale call prints at most one line, the resolver's warning,
    whether it returns or raises; when the subsampling check fails it prints
    nothing and raises what the check raised. *)
Theorem scale_output (clip : VideoNode) (width height : Z) (shift : pyval * pyval)
    (sar dar keep_ar : pyval) (kwargs : KwargsT) (out : list string) :
  extra_kwargs kwargs ->
  ((scale clip width height shift sar dar keep_ar kwargs out).1 = out \/
   (scale clip width height shift sar dar keep_ar kwargs out).1
     = (out ++ [keep_ar_warning class_name])%list) /\
  (forall e, check_correct_subsampling clip width height = Raise e ->
     scale clip width height shift sar dar keep_ar kwargs out = (out, Raise e)).
Proof.
  intros Hx. split.
  - destruct (check_correct_subsampling clip width height) as [u|e] eqn:Hc.
    + rewrite (scale_unfold _ _ _ _ _ _ _ _ _ u Hx Hc). cbn [fst].
      destruct (is_None keep_ar || is_None sar || is_None dar); auto.
    + left. unfold scale, pbind, lift. rewrite Hc. reflexivity.
  - intros e Hc. unfold scale, pbind, lift. rewrite Hc. reflexivity.
Qed.

End KeepArMore.

(** ** Properties that rest on the float laws *)

Section KeepArLaws.
Context {F : FloatOps} {FL : FloatLaws} {V : VSTools} {S : Scaler}.

(** The resolved source SAR is always the float of a fraction. *)
Lemma resolved_sar_frac (clip : VideoNode) (sar : pyval) (s : float) :
  resolved_sar clip sar = Ok s -> exists r, f_of_frac r = Ok s.
Proof.
  unfold resolved_sar. intros Hs.
  apply rbind_Ok in Hs. destruct Hs as (p & Hp & Hs).
  apply rbind_Ok in Hs. destruct Hs as (q & Hq & Hs).
  assert (Hq' : exists r, q = PySar r).
  { assert (Hp' : p = PyNone \/ exists r, p = PySar r).
    { unfold _from_param in Hp.
      destruct sar as [|[]| | | | | |]; cbn in Hp;
        try (injection Hp as <-; eauto; fail);
        (destruct (from_float _ _) as [r0|e0]; [|discriminate Hp]);
        injection Hp as <-; eauto. }
    unfold or_else in Hq. destruct Hp' as [-> | (r & ->)].
    - cbn in Hq. apply rbind_Ok in Hq. destruct Hq as (r & _ & Hq).
      injection Hq as <-. eauto.
    - destruct (truthy (PySar r)).
      + injection Hq as <-. eauto.
      + apply rbind_Ok in Hq. destruct Hq as (r' & _ & Hq). injection Hq as <-. eauto. }
  destruct Hq' as (r & ->). exists r. exact Hs.
Qed.

(** X9.  A zero target height on a non-square source raises
    [ZeroDivisionError], once the two aspect ratios were resolved and the
    target width converted to a float. *)
Theorem nonsquare_zero_height_raises (clip : VideoNode) (width : Z) (sar dar : pyval)
    (s x od w : float) (d : Qc) :
  resolved_sar clip sar = Ok s ->
  f_eqb s f1 = false ->
  Dar_from_size_clip clip = Ok d ->
  f_of_frac d = Ok x ->
  resolved_dar width 0 dar x = Ok od ->
  f_of_Z width = Ok w ->
  resolve_aspect clip width 0 sar dar = Raise ZeroDivisionError.
Proof.
  intros Hs Hn Hd Hx Ho Hw. unfold resolve_aspect.
  rewrite Hs. cbn [rbind]. rewrite Hd. cbn [rbind py_float py_num]. rewrite Hx. cbn [rbind].
  rewrite Ho. cbn [rbind]. rewrite Hn. cbn [negb].
  unfold nonsquare_dar. rewrite Hw, f_of_Z_0. cbn [rbind].
  destruct (f_ltb f1 s).
  - unfold f_div at 1. destruct (f_eqb s f0); [reflexivity|]. cbn [rbind].
    unfold f_div. rewrite f_eqb_0. reflexivity.
  - destruct (resolved_sar_frac clip sar s Hs) as (r & Hr).
    unfold f_div. rewrite (f_of_frac_mul_0 r s Hr). reflexivity.
Qed.

(** X12.  The default call -- no [sar], no [dar], [keep_ar=False] -- on a
    clip with a non-zero DAR is the primitive resample on the source window
    as given: nothing is printed, nothing trimmed, no tag applied, and the
    clip's SAR is not even read. *)
Theorem default_call_is_plain_resample (clip : VideoNode) (width height : Z)
    (shift : pyval * pyval) (kwargs : KwargsT) (out : list string) (u : unit)
    (d : Qc) (x : float) :
  extra_kwargs kwargs ->
  check_correct_subsampling clip width height = Ok u ->
  Dar_from_size_clip clip = Ok d ->
  f_of_frac d = Ok x ->
  f_eqb x f0 = false ->
  scale clip width height shift PyNone PyNone (PyBool false) kwargs out
  = (out,
     let! kw2 :=
       get_scale_args clip
         (default (default shift.1 (kwargs !! "sy")) (kwargs !! "src_top"),
          default (default shift.2 (kwargs !! "sx")) (kwargs !! "src_left"))
         width height
         (delete "src_left" (delete "src_top" (crop_defaults clip shift kwargs))) in
     scale_function clip kw2).
Proof.
  intros Hx Hc Hd Hf Hn.
  rewrite (scale_unfold _ _ _ _ _ _ _ _ _ u Hx Hc). cbn [is_None orb].
  assert (Ha : resolve_aspect clip width height (PyBool false) (PyBool false)
               = Ok {| src_sar := f1; out_sar := PyNone; src_dar := x; out_dar := x |}).
  { unfold resolve_aspect.
    assert (Hs : resolved_sar clip (PyBool false) = Ok f1).
    { unfold resolved_sar, _from_param, or_else. cbn. exact f_of_frac_1. }
    rewrite Hs. cbn [rbind]. rewrite Hd. cbn [rbind py_float py_num]. rewrite Hf. cbn [rbind].
    unfold resolved_dar, _from_param, or_else. cbn [rbind truthy].
    rewrite Hn. cbn [negb rbind py_float py_num].
    rewrite f_eqb_1. reflexivity. }
  rewrite (handle_crop_untouched _ _ _ _ _ _ _ _ Ha (f_of_frac_eqb d x Hf)).
  cbn [rbind fst snd out_sar truthy]. f_equal.
  destruct (get_scale_args _ _ _ _ _) as [kw2|e]; [|reflexivity].
  cbn [rbind]. apply rbind_ret.
Qed.

End KeepArLaws.

(** ** Properties of the trim on exact rationals *)

Section KeepArMoreExact.
#[local] Existing Instance exact.
Context {V : VSTools}.

(** X8.  On a non-square source the two branches of lines 130-133 give the
    same target DAR, [width / (height * src_sar)]: the target width in
    source pixels over the target height. *)
Theorem nonsquare_target_dar (clip : VideoNode) (width height : Z) (sar dar : pyval)
    (a : aspect) :
  resolve_aspect clip width height sar dar = Ok a ->
  src_sar a <> 1%Qc ->
  Z2Qc height <> 0%Qc /\ src_sar a <> 0%Qc /\
  out_dar a = (Z2Qc width / (Z2Qc height * src_sar a))%Qc.
Proof.
  intros Ha Hn.
  apply resolve_aspect_inv in Ha. destruct Ha as (d & od & _ & _ & _ & _ & Hc).
  apply f_eqb_neq in Hn. change (f1 (FloatOps := exact)) with 1%Qc in Hc.
  rewrite Hn in Hc. destruct Hc as (_ & Ho).
  unfold nonsquare_dar in Ho. cbn [f_of_Z exact rbind] in Ho.
  destruct (f_ltb f1 (src_sar a)).
  - apply rbind_Ok in Ho. destruct Ho as (t & Ht & Ho).
    apply f_div_inv in Ht. destruct Ht as (Hs & ->).
    apply f_div_inv in Ho. destruct Ho as (Hh & ->).
    repeat split; try assumption. exact (div_div_mul _ _ _ Hs Hh).
  - apply f_div_inv in Ho. destruct Ho as (Hm & ->).
    destruct (mul_neq_0 _ _ Hm) as (Hh & Hs).
    repeat split; assumption.
Qed.

(** X10.  Whenever the DARs differ, the corrected window has the target
    DAR: its width is its height times [out_dar], on either axis of trim. *)
Theorem trimmed_window_has_target_dar (clip : VideoNode) (width height : Z)
    (shift : pyval * pyval) (sar dar : pyval) (kwargs : KwargsT) (old : CropWindow)
    (a : aspect) :
  crop_window (crop_defaults clip shift kwargs) = Ok old ->
  resolve_aspect clip width height sar dar = Ok a ->
  ((src_dar a < out_dar a)%Qc -> out_dar a <> 0%Qc) ->
  src_dar a <> out_dar a ->
  exists kw' out_shift new,
    _handle_crop_resize_kwargs clip width height shift sar dar kwargs
      = Ok (kw', out_shift, out_sar a) /\
    crop_window_of out_shift kw' = Ok new /\
    cw_width new = (cw_height new * out_dar a)%Qc.
Proof.
  intros Hw Ha Hz Hd.
  destruct (handle_crop_spec_exact _ _ _ _ _ _ _ _ _ Hw Ha Hz)
    as (kw' & sh & new & Hh & Hn & ->).
  exists kw', sh. eexists. split; [exact Hh|]. split; [exact Hn|].
  pose proof Hd as Hd'. apply f_eqb_neq in Hd'. rewrite Hd'.
  destruct (f_ltb (out_dar a) (src_dar a)) eqn:L.
  - unfold trim_width. cbn [cw_width cw_height]. apply width_after_trim.
  - unfold trim_height. cbn [cw_width cw_height].
    assert (Hne : out_dar a <> 0%Qc).
    { apply Hz. apply f_ltb_ge in L. apply Qcle_lt_or_eq in L.
      destruct L as [L|L]; [exact L | congruence]. }
    exact (height_after_trim _ _ _ Hne).
Qed.

End KeepArMoreExact.

(** ** Further properties of [_BaseLinearOperation] *)

Section LinearMore.
Context {F : FloatOps} {V : VSTools} {L : LinearLightScope}.

(** X17.  The constructor keeps every keyword in [orig_kwargs] and passes
    all of them on in [kwargs] except [linear] and [sigmoid]. *)
Theorem init_strips_linear_sigmoid (cls : kernel_class) (kwargs : KwargsT) :
  orig_kwargs (__init__ cls kwargs) = kwargs /\
  kwargs_ (__init__ cls kwargs) !! "linear" = None /\
  kwargs_ (__init__ cls kwargs) !! "sigmoid" = None /\
  (forall k, k <> "linear" -> k <> "sigmoid" ->
     kwargs_ (__init__ cls kwargs) !! k = kwargs !! k).
Proof.
  cbn [__init__ orig_kwargs kwargs_]. repeat split.
  - apply map_lookup_filter_None. right. intros x _ Hn. cbn in Hn.
    apply Hn. rewrite !elem_of_cons. auto.
  - apply map_lookup_filter_None. right. intros x _ Hn. cbn in Hn.
    apply Hn. rewrite !elem_of_cons. auto.
  - intros k Nl Ns. destruct (kwargs !! k) as [v|] eqn:Hk.
    + apply map_lookup_filter_Some. split; [exact Hk|]. cbn. kw_notin.
    + apply map_lookup_filter_None. by left.
Qed.

(** X18.  A kernel with neither a [_linear_<op>] override nor an inherited
    [<op>] raises [AttributeError] for the operation's name, whatever the
    flags are, before any frame is touched. *)
Theorem missing_operation_raises (op_name : string) (self : kernel) (clip : VideoNode)
    (width height : Z) (shift : pyval * pyval) (linear sigmoid : pyval) (kwargs : KwargsT) :
  class_attrs (kernel_cls self) ("_linear_" ++ op_name) = None ->
  super_attrs (kernel_cls self) op_name = None ->
  _linear_op op_name self clip width height shift linear sigmoid kwargs
  = Raise (AttributeError op_name).
Proof.
  intros Hc Hs. unfold _linear_op, hasattr, resolve_operation, getattr_super.
  rewrite Hc, Hs. reflexivity.
Qed.

(** X19.  A kernel constructed with a truthy [linear] runs every call inside
    the scoped transform, whatever the per-call [linear] and [sigmoid] are:
    the operation found gets the frame the transform gives and its result is
    handed back to the transform.  The transform is built with the
    constructor's own [linear] value as its linear flag and with the
    [format] keyword, which the operation does not get. *)
Theorem constructor_linear_always_scoped (op_name : string) (self : kernel)
    (clip : VideoNode) (width height : Z) (shift : pyval * pyval)
    (linear sigmoid : pyval) (kwargs : KwargsT) (l0 : pyval) (op : operation) :
  orig_kwargs self !! "linear" = Some l0 ->
  truthy l0 = true ->
  class_attrs (kernel_cls self) ("_linear_" ++ op_name) = Some op \/
  (class_attrs (kernel_cls self) ("_linear_" ++ op_name) = None /\
   super_attrs (kernel_cls self) op_name = Some op) ->
  let ll := {| ll_clip := clip; ll_linear := l0;
               ll_sigmoid := default sigmoid (orig_kwargs self !! "sigmoid");
               ll_resampler := self; ll_out_fmt := default PyNone (kwargs !! "format") |} in
  _linear_op op_name self clip width height shift linear sigmoid kwargs =
    let! lin := to_linear ll in
    let! res := op lin width height shift (delete "format" kwargs) in
    from_linear ll res.
Proof.
  intros Hl Ht Hop ll.
  destruct Hop as [Hc | (Hc & Hp)].
  - rewrite (linear_op_found op_name self clip width height shift linear sigmoid kwargs
               op true) by (left; auto).
    cbv zeta. rewrite Hl. cbn [default from_option id]. rewrite Ht, andb_false_r.
    reflexivity.
  - rewrite (linear_op_found op_name self clip width height shift linear sigmoid kwargs
               op false) by (right; auto).
    cbv zeta. rewrite Hl. cbn [default from_option id]. rewrite Ht. reflexivity.
Qed.

End LinearMore.

(** * Sample calls *)

Import Demo.

(** An equation between two closed terms, by evaluation of both sides *)
Ltac by_vm :=
  lazymatch goal with
  | |- ?x = ?y => exact (@eq_refl _ x <: x = y)
  end.

Lemma no_extra_kwargs {F : FloatOps} : extra_kwargs ∅.
Proof. repeat split. Qed.

(** ** On exact rationals *)

Section ExactSamples.
#[local] Existing Instance exact.

Lemma center_preserved_witness :
  exists kw' out_shift new,
    _handle_crop_resize_kwargs (V := vstools) ntsc 1280 720 no_shift (PyBool true) (PyBool true) ∅
      = Ok (kw', out_shift, PySar 1) /\
    crop_window_of out_shift kw' = Ok new /\
    (cw_left new + cw_width new / 2 = Z2Qc 0 + Z2Qc 720 / 2)%Qc /\
    (cw_top new + cw_height new / 2 = Z2Qc 0 + Z2Qc 480 / 2)%Qc.
Proof.
  pose (old := {| cw_top := Z2Qc 0; cw_left := Z2Qc 0;
                  cw_width := Z2Qc 720; cw_height := Z2Qc 480 |}).
  pose (a := result_or {| src_sar := 0%Qc; out_sar := PyNone; src_dar := 0%Qc; out_dar := 0%Qc |}
               (resolve_aspect (V := vstools) ntsc 1280 720 (PyBool true) (PyBool true))).
  destruct (center_preserved (V := vstools) ntsc 1280 720 no_shift
              (PyBool true) (PyBool true) ∅ old a) as (kw' & sh & new & Hh & Hn & Hx & Hy).
  - by_vm.
  - by_vm.
  - intros _. apply f_eqb_neq. by_vm.
  - assert (Et : out_sar a = PySar 1) by by_vm.
    exists kw', sh, new.
    split; [exact (eq_trans Hh (f_equal (fun t => Ok (kw', sh, t)) Et))|].
    split; [exact Hn|]. split; [exact Hx | exact Hy].
Defined.

Lemma nonsquare_target_dar_witness :
  exists a,
    resolve_aspect (V := vstools) ntsc 1280 720 (PyBool true) (PyBool true) = Ok a /\
    out_dar a = (Z2Qc 1280 / (Z2Qc 720 * src_sar a))%Qc.
Proof.
  pose (a := result_or {| src_sar := 0%Qc; out_sar := PyNone; src_dar := 0%Qc; out_dar := 0%Qc |}
               (resolve_aspect (V := vstools) ntsc 1280 720 (PyBool true) (PyBool true))).
  assert (Ea : resolve_aspect (V := vstools) ntsc 1280 720 (PyBool true) (PyBool true) = Ok a)
    by by_vm.
  exists a. split; [exact Ea|].
  refine (proj2 (proj2 (nonsquare_target_dar (V := vstools) ntsc 1280 720
                          (PyBool true) (PyBool true) a Ea _))).
  apply f_eqb_neq. by_vm.
Defined.

Lemma trimmed_window_has_target_dar_witness :
  exists a kw' out_shift new,
    resolve_aspect (V := vstools) ntsc 1280 720 (PyBool true) (PyBool true) = Ok a /\
    _handle_crop_resize_kwargs ntsc 1280 720 no_shift (PyBool true) (PyBool true) ∅
      = Ok (kw', out_shift, out_sar a) /\
    crop_window_of out_shift kw' = Ok new /\
    cw_width new = (cw_height new * out_dar a)%Qc.
Proof.
  pose (old := {| cw_top := Z2Qc 0; cw_left := Z2Qc 0;
                  cw_width := Z2Qc 720; cw_height := Z2Qc 480 |}).
  pose (a := result_or {| src_sar := 0%Qc; out_sar := PyNone; src_dar := 0%Qc; out_dar := 0%Qc |}
               (resolve_aspect (V := vstools) ntsc 1280 720 (PyBool true) (PyBool true))).
  assert (Ea : resolve_aspect (V := vstools) ntsc 1280 720 (PyBool true) (PyBool true) = Ok a)
    by by_vm.
  exists a.
  destruct (trimmed_window_has_target_dar (V := vstools) ntsc 1280 720 no_shift
              (PyBool true) (PyBool true) ∅ old a) as (kw' & sh & new & Hh & Hn & Hd).
  - by_vm.
  - exact Ea.
  - intros _. apply f_eqb_neq. by_vm.
  - apply f_eqb_neq. by_vm.
  - exists kw', sh, new. split; [exact Ea|]. split; [exact Hh|]. split; [exact Hn | exact Hd].
Defined.

End ExactSamples.

(** ** On IEEE 754 doubles *)

#[local] Existing Instance binary64.

(** [float(Sar(8, 9))] is 0.8888888888888888, and not 1.0. *)
Lemma sar_8_9_double :
  resolved_sar (V := vstools) ntsc (PyBool true)
    = Ok (S754_finite false 8006399337547548 (-53)) /\
  f_eqb (S754_finite false 8006399337547548 (-53)) f1 = false.
Proof. split; by_vm. Qed.

(** An [int] width of 2^1024 has no double: the recomputation of the target
    DAR raises [OverflowError]. *)
Lemma huge_width_overflows :
  resolve_aspect (V := vstools) ntsc (2 ^ 1024) 720 (PyBool true) (PyBool false)
  = Raise OverflowError.
Proof. by_vm. Qed.

(** [float(Sar(2^53 + 1, 2^53))] is 1.0, so the target DAR is not recomputed
    and a target height of 0 divides nothing. *)
Lemma near_square_zero_height_returns :
  resolved_sar (V := vstools) hd (PySar sar_near_1) = Ok f1 /\
  raised (resolve_aspect (V := vstools) hd 1280 0 (PySar sar_near_1) (PyBool false)) = false.
Proof. split; by_vm. Qed.

(** C1, the claim as stated fails: the 720x480 source with SAR 8/9 scaled to
    1280x720 with the DAR forced to 16/9 comes back tagged 1:1. *)
Lemma sar_tag_with_forced_dar_sample :
  concrete (PyDar (Qc_of 16 9)) = true /\
  (exists s, resolved_sar (V := vstools) ntsc (PyBool true) = Ok s /\ f_eqb s f1 = false) /\
  exists c,
    (scale (S := bicubic) ntsc 1280 720 no_shift (PyBool true) (PyDar (Qc_of 16 9))
       (PyBool false) ∅ []).2 = Ok c /\
    f_tag c = Some 1%Qc.
Proof.
  split; [reflexivity|]. split.
  - eexists. exact sar_8_9_double.
  - exists (tagged 1 (resample (<["width" := PyInt 1280]> {["height" := PyInt 720]}) ntsc)).
    split; by_vm.
Qed.

Lemma sar_tag_despite_forced_dar_witness :
  exists c2,
    (scale (S := bicubic) ntsc 1280 720 no_shift (PyBool true) (PyDar (Qc_of 16 9))
       (PyBool false) ∅ []).2 = Sar_apply 1%Qc c2.
Proof.
  pose (r := result_or (∅, no_shift, PyNone)
               (_handle_crop_resize_kwargs (V := vstools) ntsc 1280 720 no_shift (PyBool true)
                  (PyDar (Qc_of 16 9)) ∅)).
  pose (kw2 := result_or ∅ (get_scale_args (Scaler := bicubic) ntsc r.1.2 1280 720 r.1.1)).
  pose (c2 := result_or ntsc (scale_function (Scaler := bicubic) ntsc kw2)).
  exists c2.
  refine (proj2 (proj2 (sar_tag_despite_forced_dar (S := bicubic) ntsc 1280 720 no_shift
            (PyBool true) (PyDar (Qc_of 16 9)) (PyBool false) ∅ [] tt
            (S754_finite false 8006399337547548 (-53)) r.1.1 r.1.2 r.2 kw2 c2
            no_extra_kwargs eq_refl eq_refl _ _ _ _) _)); by_vm.
Defined.

(** C2, the claim as stated fails: with [keep_ar=True] the warning is printed
    for [sar=True] (auto) and [dar=False] (disabled), neither of them a
    concrete aspect value. *)
Lemma warning_on_boolean_overrides :
  concrete (PyBool true) = false /\
  concrete (PyBool false) = false /\
  (_get_kwargs_keep_ar (S := bicubic) (PyBool true) (PyBool false) (PyBool true) ∅ []).1
    = [keep_ar_warning "Bicubic"].
Proof.
  split; [reflexivity|]. split; [reflexivity | by_vm].
Qed.

Lemma keep_ar_warning_policy_witness :
  (_get_kwargs_keep_ar (S := bicubic)
     (PySar (Qc_of 8 9)) (PyDar (Qc_of 16 9)) (PyBool true) ∅ []).1
    = [keep_ar_warning "Bicubic"].
Proof.
  destruct (keep_ar_warning_policy (S := bicubic)
              (PySar (Qc_of 8 9)) (PyDar (Qc_of 16 9)) (PyBool true) ∅ []
              no_extra_kwargs) as (_ & Hw & _).
  exact (Hw eq_refl eq_refl eq_refl).
Defined.

(** The target DAR of 720x480 with SAR 8/9 scaled to 640x480 is
    1.5000000000000002 on doubles, not the source DAR 1.5: the height is
    trimmed, to 479.99999999999994. *)
Lemma one_axis_trimmed_witness :
  exists kw' out_shift new,
    _handle_crop_resize_kwargs (V := vstools) ntsc 640 480 no_shift (PyBool true) (PyBool true) ∅
      = Ok (kw', out_shift, PySar 1) /\
    crop_window_of out_shift kw' = Ok new /\
    cw_width new = S754_finite false 6333186975989760 (-43) /\
    cw_height new = S754_finite false 8444249301319679 (-44).
Proof.
  pose (old := {| cw_top := S754_zero false; cw_left := S754_zero false;
                  cw_width := S754_finite false 6333186975989760 (-43);
                  cw_height := S754_finite false 8444249301319680 (-44) |} : CropWindow).
  pose (a := {| src_sar := S754_finite false 8006399337547548 (-53);
                out_sar := PySar 1;
                src_dar := S754_finite false 6755399441055744 (-52);
                out_dar := S754_finite false 6755399441055745 (-52) |} : aspect).
  assert (Ne : f_eqb (src_dar a) (out_dar a) = false) by by_vm.
  assert (Nl : f_ltb (out_dar a) (src_dar a) = false) by by_vm.
  destruct (one_axis_trimmed (V := vstools) ntsc 640 480 no_shift
              (PyBool true) (PyBool true) ∅ old a) as (kw' & sh & new & Hh & Hn & Hd).
  - by_vm.
  - by_vm.
  - intros _ _. by_vm.
  - exists kw', sh, new. split; [exact Hh|]. split; [exact Hn|].
    destruct Hd as [(E & _) | [(_ & E & _) | (_ & _ & -> & _)]].
    + rewrite Ne in E. discriminate E.
    + rewrite Nl in E. discriminate E.
    + split; by_vm.
Defined.


Lemma keep_ar_noop_when_both_given_witness :
  scale (S := bicubic) ntsc 1280 720 no_shift (PySar (Qc_of 8 9)) (PyDar (Qc_of 16 9))
    (PyBool true) ∅ []
  = scale (S := bicubic) ntsc 1280 720 no_shift (PySar (Qc_of 8 9)) (PyDar (Qc_of 16 9))
      (PyBool false) ∅ [].
Proof.
  destruct (keep_ar_noop_when_both_given (S := bicubic) ntsc 1280 720 no_shift
              (PySar (Qc_of 8 9)) (PyDar (Qc_of 16 9)) ∅ []
              no_extra_kwargs eq_refl eq_refl) as (Hw & _).
  exact Hw.
Defined.

(** C9, the claim as stated fails: the string override ["wide"] raises
    nothing, in [_from_param] or in the whole call, which does what the call
    with [sar=True] does. *)
Lemma non_numeric_override_sample :
  isinstance_SupportsFloatOrIndex (PyStr "wide") = false /\
  _from_param (V := vstools) Sar (PyStr "wide") (PySar 1) = Ok PyNone /\
  raised (scale (S := bicubic) ntsc 1280 720 no_shift (PyStr "wide") PyNone (PyBool false)
            ∅ []).2 = false /\
  scale (S := bicubic) ntsc 1280 720 no_shift (PyStr "wide") PyNone (PyBool false) ∅ []
  = scale (S := bicubic) ntsc 1280 720 no_shift (PyBool true) PyNone (PyBool false) ∅ [].
Proof.
  split; [reflexivity|]. split; [reflexivity|]. split; by_vm.
Qed.

Lemma unrecognised_override_is_auto_witness :
  _from_param (V := vstools) Sar (PyStr "wide") (PySar 1) = Ok PyNone.
Proof.
  refine (proj1 (unrecognised_override_is_auto (V := vstools) Sar (PyStr "wide") (PySar 1)
                   _ eq_refl eq_refl)).
  intros b. discriminate.
Defined.

(** C7, the claim as stated fails: on a kernel built with [sigmoid=False],
    the call with [linear=False, sigmoid=True] invokes the default-space
    operation directly, outside the scoped transform. *)
Lemma falsy_constructor_sigmoid_sample :
  truthy (PyBool true) = true /\
  _linear_op (L := linear_light) "scale" plain_no_sigmoid hd 1280 720 no_shift
    (PyBool false) (PyBool true) ∅
    = plain_op hd 1280 720 no_shift ∅ /\
  exists c,
    _linear_op (L := linear_light) "scale" plain_no_sigmoid hd 1280 720 no_shift
      (PyBool false) (PyBool true) ∅ = Ok c /\
    f_log c = ["scale"].
Proof.
  split; [reflexivity|]. split; [by_vm|].
  exists (logged "scale" (resized 1280 720 hd)). split; by_vm.
Qed.

Lemma sigmoid_in_effect_forces_linear_witness :
  exists c,
    _linear_op (L := linear_light) "scale" (__init__ PlainKernel ∅) hd 1280 720 no_shift
      (PyBool false) (PyBool true) ∅ = Ok c /\
    f_log c = ["to_linear"; "scale"; "from_linear"].
Proof.
  destruct (sigmoid_in_effect_forces_linear (L := linear_light) "scale"
              (__init__ PlainKernel ∅) hd 1280 720 no_shift
              (PyBool false) (PyBool true) ∅ plain_op) as (_ & Hr).
  - left. split; reflexivity.
  - right. split; reflexivity.
  - exists (logged "from_linear" (logged "scale" (resized 1280 720 (logged "to_linear" hd)))).
    split; [|by_vm].
    etransitivity; [exact Hr | by_vm].
Defined.

Lemma custom_op_runs_in_linear_light_witness :
  (exists c,
     _linear_op (L := linear_light) "scale" (__init__ CustomKernel ∅) hd 1280 720 no_shift
       (PyBool false) (PyBool false) ∅ = Ok c /\
     f_log c = ["to_linear"; "_linear_scale"; "from_linear"]) /\
  _linear_op (L := linear_light) "scale" (__init__ PlainKernel ∅) hd 1280 720 no_shift
    (PyBool false) (PyBool false) ∅
  = plain_op hd 1280 720 no_shift ∅.
Proof.
  split.
  - exists (logged "from_linear"
             (logged "_linear_scale" (resized 1280 720 (logged "to_linear" hd)))).
    split; [|by_vm].
    etransitivity;
      [exact (proj1 (custom_op_runs_in_linear_light (L := linear_light) "scale"
                       (__init__ CustomKernel ∅) hd 1280 720 no_shift
                       (PyBool false) (PyBool false) ∅) custom_op eq_refl)
      | by_vm].
  - etransitivity;
      [exact (proj2 (custom_op_runs_in_linear_light (L := linear_light) "scale"
                       (__init__ PlainKernel ∅) hd 1280 720 no_shift
                       (PyBool false) (PyBool false) ∅) plain_op eq_refl eq_refl)
      | by_vm].
Defined.

Lemma constructor_sigmoid_replaces_witness :
  _linear_op (L := linear_light) "scale"
    (__init__ PlainKernel {["sigmoid" := PyBool false]}) hd 1280 720 no_shift
    (PyBool false) (PyBool true) ∅
  = plain_op hd 1280 720 no_shift ∅.
Proof.
  etransitivity;
    [refine (proj2 (constructor_sigmoid_replaces (L := linear_light) PlainKernel
                      {["sigmoid" := PyBool false]} (PyBool false) "scale" hd 1280 720
                      no_shift (PyBool false) (PyBool true) ∅ _) plain_op eq_refl eq_refl);
     by_vm
    | by_vm].
Defined.

(** ** Sample calls for the further properties *)

Lemma crop_defaults_keys_witness :
  is_Some (crop_defaults (V := vstools) hd no_shift {["sx" := PyInt 4]} !! "src_left") /\
  crop_defaults (V := vstools) hd no_shift {["sx" := PyInt 4]} !! "sx" = None /\
  crop_defaults (V := vstools) hd no_shift {["sx" := PyInt 4]} !! "filter_param_a"
    = ({["sx" := PyInt 4]} : gmap string pyval) !! "filter_param_a".
Proof.
  destruct (crop_defaults_keys (V := vstools) hd no_shift {["sx" := PyInt 4]})
    as (K1 & K2 & K3).
  split; [|split].
  - apply K1. rewrite !elem_of_cons. auto.
  - apply K2. rewrite !elem_of_cons. auto.
  - apply K3. rewrite !not_elem_of_cons. repeat split; try discriminate.
    apply not_elem_of_nil.
Defined.

Lemma handle_crop_output_keys_witness :
  exists kw' out_shift tag,
    _handle_crop_resize_kwargs (V := vstools) hd 1920 800 no_shift (PyBool false) (PyBool true)
      {["sx" := PyInt 4]} = Ok (kw', out_shift, tag) /\
    kw' !! "src_left" = None /\ kw' !! "sx" = None /\ is_Some (kw' !! "src_width").
Proof.
  pose (r := result_or (∅, no_shift, PyNone)
               (_handle_crop_resize_kwargs (V := vstools) hd 1920 800 no_shift (PyBool false)
                  (PyBool true) {["sx" := PyInt 4]})).
  assert (Eh : _handle_crop_resize_kwargs (V := vstools) hd 1920 800 no_shift (PyBool false)
                 (PyBool true) {["sx" := PyInt 4]} = Ok (r.1.1, r.1.2, r.2)) by by_vm.
  destruct (handle_crop_output_keys (V := vstools) hd 1920 800 no_shift
              (PyBool false) (PyBool true) {["sx" := PyInt 4]} r.1.1 r.1.2 r.2 Eh)
    as (K & W & _ & _).
  exists r.1.1, r.1.2, r.2. split; [exact Eh|]. split; [|split].
  - apply K. rewrite !elem_of_cons. auto.
  - apply K. rewrite !elem_of_cons. auto.
  - exact W.
Defined.

(** [float(Sar(2^53 + 1, 2^53))] is the double 1.0: the source counts as
    square, the target DAR is that of 1920x1080, equal to the source DAR, and
    the window is left alone, its non-numeric width included. *)
Lemma matching_dar_leaves_window_witness :
  resolved_sar (V := vstools) hd (PySar sar_near_1) = Ok f1 /\
  _handle_crop_resize_kwargs (V := vstools) hd 1920 1080 no_shift (PySar sar_near_1)
    (PyBool true) {["sw" := PyStr "full"]}
  = Ok (delete "src_left" (delete "src_top"
          (crop_defaults (V := vstools) hd no_shift {["sw" := PyStr "full"]})),
        (PyInt 0, PyInt 0), PyNone).
Proof.
  split; [by_vm|].
  pose (a := {| src_sar := f1; out_sar := PyNone;
                src_dar := S754_finite false 8006399337547548 (-52);
                out_dar := S754_finite false 8006399337547548 (-52) |} : aspect).
  etransitivity.
  - eapply (matching_dar_leaves_window (V := vstools) hd 1920 1080 no_shift
              (PySar sar_near_1) (PyBool true) {["sw" := PyStr "full"]} a); by_vm.
  - by_vm.
Defined.

Lemma non_numeric_width_raises_witness :
  _handle_crop_resize_kwargs (V := vstools) hd 1920 800 no_shift (PyBool false) (PyBool true)
    {["sw" := PyStr "full"]} = Raise TypeError.
Proof.
  pose (a := {| src_sar := f1; out_sar := PyNone;
                src_dar := S754_finite false 8006399337547548 (-52);
                out_dar := S754_finite false 5404319552844595 (-51) |} : aspect).
  eapply (non_numeric_width_raises (V := vstools) hd 1920 800 no_shift
            (PyBool false) (PyBool true) {["sw" := PyStr "full"]} a).
  - by_vm.
  - by_vm.
  - by_vm.
  - intros e E.
    assert (Eh : py_num (default (default (PyInt (clip_height (VSTools := vstools) hd))
                                    (({["sw" := PyStr "full"]} : gmap string pyval) !! "sh"))
                           (({["sw" := PyStr "full"]} : gmap string pyval) !! "src_height"))
                 = Ok (S754_finite false 4749890231992320 (-42))) by by_vm.
    rewrite Eh in E. discriminate E.
Defined.

Lemma zero_override_is_auto_witness :
  resolved_sar (V := vstools) ntsc (PyFloat f0)
  = (let! r := Sar_from_clip (VSTools := vstools) ntsc in f_of_frac r).
Proof.
  refine (proj1 (zero_override_is_auto (V := vstools) ntsc 1280 720 (PyFloat f0) f1
                   eq_refl eq_refl) eq_refl _).
  by_vm.
Defined.

Lemma nonsquare_target_dar_ignores_dar_witness :
  exists a a',
    resolve_aspect (V := vstools) ntsc 1280 720 (PyBool true) (PyDar (Qc_of 16 9)) = Ok a /\
    resolve_aspect (V := vstools) ntsc 1280 720 (PyBool true) (PyBool true) = Ok a' /\
    a = a'.
Proof.
  pose (a := {| src_sar := S754_finite false 8006399337547548 (-53);
                out_sar := PySar 1;
                src_dar := S754_finite false 6755399441055744 (-52);
                out_dar := S754_finite false 4503599627370496 (-51) |} : aspect).
  assert (E1 : resolve_aspect (V := vstools) ntsc 1280 720 (PyBool true) (PyDar (Qc_of 16 9))
               = Ok a) by by_vm.
  assert (E2 : resolve_aspect (V := vstools) ntsc 1280 720 (PyBool true) (PyBool true)
               = Ok a) by by_vm.
  exists a, a. split; [exact E1|]. split; [exact E2|].
  refine (nonsquare_target_dar_ignores_dar (V := vstools) ntsc 1280 720 (PyBool true)
            (PyDar (Qc_of 16 9)) (PyBool true) a a E1 E2 _).
  by_vm.
Defined.

Lemma nonsquare_zero_height_raises_witness :
  resolve_aspect (V := vstools) ntsc 1280 0 (PyBool true) (PyBool false)
  = Raise ZeroDivisionError.
Proof.
  refine (nonsquare_zero_height_raises (FL := binary64_laws) (V := vstools) ntsc 1280
            (PyBool true) (PyBool false)
            (S754_finite false 8006399337547548 (-53))
            (S754_finite false 6755399441055744 (-52))
            (S754_finite false 6755399441055744 (-52))
            (S754_finite false 5629499534213120 (-42))
            (Qc_of 720 480) _ _ _ _ _ _); by_vm.
Defined.

(** With [float(Sar(2^53 + 1, 2^53)) == 1.0] nothing is tagged. *)
Lemma square_source_untagged_witness :
  exists kw' out_shift kw2,
    _handle_crop_resize_kwargs (V := vstools) hd 1280 720 no_shift (PySar sar_near_1)
      (PyBool true) ∅ = Ok (kw', out_shift, PyNone) /\
    (scale (S := bicubic) hd 1280 720 no_shift (PySar sar_near_1) PyNone (PyBool true) ∅ []).2
      = scale_function hd kw2.
Proof.
  pose (r := result_or (∅, no_shift, PyNone)
               (_handle_crop_resize_kwargs (V := vstools) hd 1280 720 no_shift
                  (PySar sar_near_1) (PyBool true) ∅)).
  pose (kw2 := result_or ∅ (get_scale_args (Scaler := bicubic) hd r.1.2 1280 720 r.1.1)).
  exists r.1.1, r.1.2, kw2. split; [by_vm|].
  refine (proj2 (square_source_untagged (S := bicubic) hd 1280 720 no_shift
                   (PySar sar_near_1) PyNone (PyBool true) ∅ [] tt f1 r.1.1 r.1.2 r.2 kw2
                   no_extra_kwargs eq_refl _ _ _ _)); by_vm.
Defined.

Lemma default_call_is_plain_resample_witness :
  scale (S := bicubic) hd 1280 720 no_shift PyNone PyNone (PyBool false) ∅ []
  = ([], let! kw2 :=
           get_scale_args hd (PyInt 0, PyInt 0) 1280 720
             (delete "src_left" (delete "src_top" (crop_defaults hd no_shift ∅))) in
         scale_function hd kw2).
Proof.
  etransitivity.
  - eapply (default_call_is_plain_resample (FL := binary64_laws) (S := bicubic)
              hd 1280 720 no_shift ∅ [] tt (Qc_of 1920 1080)
              (S754_finite false 8006399337547548 (-52)) no_extra_kwargs eq_refl); by_vm.
  - by_vm.
Defined.

Lemma warning_ignores_keep_ar_value_witness :
  (_get_kwargs_keep_ar (S := bicubic)
     (PySar (Qc_of 8 9)) (PyDar (Qc_of 16 9)) (PyBool false) ∅ []).1
    = [keep_ar_warning "Bicubic"].
Proof.
  destruct (warning_ignores_keep_ar_value (S := bicubic)
              (PySar (Qc_of 8 9)) (PyDar (Qc_of 16 9)) ∅ []
              no_extra_kwargs eq_refl eq_refl) as (_ & Hw & _).
  exact Hw.
Defined.

Lemma resolver_output_witness :
  exists kw',
    (_get_kwargs_keep_ar (S := bicubic) PyNone (PyDar (Qc_of 16 9)) (PyBool true) ∅ []).2
      = Ok kw' /\
    kw' !! "keep_ar" = None /\
    kw' !! "sar" = Some (PyBool true) /\
    kw' !! "dar" = Some (PyDar (Qc_of 16 9)).
Proof.
  destruct (resolver_output (S := bicubic) PyNone (PyDar (Qc_of 16 9)) (PyBool true) ∅ []
              no_extra_kwargs) as (kw' & Hr & Hk & Hs & Hd & _).
  exists kw'. split; [exact Hr|]. split; [exact Hk|]. split; [exact Hs | exact Hd].
Defined.

Lemma unset_axis_takes_keep_ar_witness :
  (scale (S := bicubic) ntsc 1280 720 no_shift PyNone PyNone (PyBool true) ∅ []).2
  = (scale (S := bicubic) ntsc 1280 720 no_shift (PyBool true) PyNone (PyBool true) ∅ []).2.
Proof.
  exact (proj1 (unset_axis_takes_keep_ar (S := bicubic) ntsc 1280 720 no_shift
                  PyNone PyNone (PyBool true) ∅ [] no_extra_kwargs)).
Defined.

Lemma scale_output_witness :
  (scale (S := bicubic) ntsc 1280 720 no_shift (PySar (Qc_of 8 9)) (PyDar (Qc_of 16 9))
     (PyBool false) ∅ []).1 = [] \/
  (scale (S := bicubic) ntsc 1280 720 no_shift (PySar (Qc_of 8 9)) (PyDar (Qc_of 16 9))
     (PyBool false) ∅ []).1 = [keep_ar_warning "Bicubic"].
Proof.
  exact (proj1 (scale_output (S := bicubic) ntsc 1280 720 no_shift
                  (PySar (Qc_of 8 9)) (PyDar (Qc_of 16 9)) (PyBool false) ∅ []
                  no_extra_kwargs)).
Defined.

Lemma init_strips_linear_sigmoid_witness :
  kwargs_ (__init__ PlainKernel (<["b" := PyInt 0]> {["linear" := PyBool true]})) !! "b"
  = (<["b" := PyInt 0]> {["linear" := PyBool true]} : gmap string pyval) !! "b".
Proof.
  refine (proj2 (proj2 (proj2 (init_strips_linear_sigmoid (V := vstools) PlainKernel
            (<["b" := PyInt 0]> {["linear" := PyBool true]})))) "b" _ _); discriminate.
Defined.

Lemma missing_operation_raises_witness :
  _linear_op (L := linear_light) "descale" (__init__ PlainKernel ∅) hd 1280 720 no_shift
    (PyBool true) (PyBool false) ∅
  = Raise (AttributeError "descale").
Proof.
  exact (missing_operation_raises (L := linear_light) "descale" (__init__ PlainKernel ∅)
           hd 1280 720 no_shift (PyBool true) (PyBool false) ∅ eq_refl eq_refl).
Defined.

Lemma constructor_linear_always_scoped_witness :
  exists c,
    _linear_op (L := linear_light) "scale" (__init__ PlainKernel {["linear" := PyBool true]})
      hd 1280 720 no_shift (PyBool false) (PyBool false) ∅ = Ok c /\
    f_log c = ["to_linear"; "scale"; "from_linear"].
Proof.
  exists (logged "from_linear" (logged "scale" (resized 1280 720 (logged "to_linear" hd)))).
  split; [|by_vm].
  etransitivity;
    [refine (constructor_linear_always_scoped (L := linear_light) "scale"
               (__init__ PlainKernel {["linear" := PyBool true]}) hd 1280 720 no_shift
               (PyBool false) (PyBool false) ∅ (PyBool true) plain_op _ eq_refl _);
     [by_vm | right; split; reflexivity]
    | by_vm].
Defined.
